(** * Stock dashboard: the data pipeline of [stock-dashboard.py]

    A shallow embedding of the four pipeline functions of
    [stock-dashboard.py] ([process_data], [calculate_metrics],
    [add_technical_indicators] and the [interval_mapping] table) together
    with the pandas and [ta] operations they call, and the properties of
    the specification proved (or refuted) on it.

    Modelling conventions.
    - Python floats are modelled by exact rationals with a separate [NaN]
      (pandas' missing-value marker); rounding and infinities are left out.
    - Python integers are modelled by [Z]. The entries of an int64 column
      are 64-bit integers, stored as [Z]; a sum over such a column is taken
      in 64 bits and wraps around ([int64_wrap]).
    - A timestamp is its instant in nanoseconds (the [i8] value pandas
      stores) together with the time zone attached to the index or column;
      for a zone-naive index the stored value is the wall-clock reading.
    - The functions of the source mutate the [DataFrame] object they are
      given; the model threads that object through a state monad in which
      an exception leaves the mutations made so far in place. *)

From Stdlib Require Import QArith Qminmax Lqa.
From stdpp Require Import base option list strings gmap.

Local Open Scope Z_scope.

(** ** Exceptions and the two monads *)

Inductive PyError : Type :=
| IndexError
| KeyError
| ValueError
| TypeError
| AttributeError
| ZeroDivisionError
| IndexingError   (* pandas.errors.IndexingError *)
| DataError.      (* pandas.errors.DataError *)

(** The name of the Python class of each exception. *)
Definition error_name (e : PyError) : string :=
  match e with
  | IndexError => "IndexError"
  | KeyError => "KeyError"
  | ValueError => "ValueError"
  | TypeError => "TypeError"
  | AttributeError => "AttributeError"
  | ZeroDivisionError => "ZeroDivisionError"
  | IndexingError => "IndexingError"
  | DataError => "DataError"
  end.

Inductive result (A : Type) : Type :=
| Ok (a : A)
| Raise (e : PyError).
Arguments Ok {A} a.
Arguments Raise {A} e.

#[global] Instance result_ret : MRet result := fun _ a => Ok a.
#[global] Instance result_bind : MBind result := fun _ _ f m =>
  match m with
  | Ok a => f a
  | Raise e => Raise e
  end.
#[global] Instance result_fmap : FMap result := fun _ _ f m =>
  match m with
  | Ok a => Ok (f a)
  | Raise e => Raise e
  end.

Module Frame.

(** *** Values *)

Inductive pyfloat : Type :=
| NaN
| Fin (q : Q).

(** A Python scalar as [.item()] hands it out: a float, an int, or a
    pandas Timestamp ([None] is NaT). *)
Inductive scalar : Type :=
| SFloat (f : pyfloat)
| SInt (z : Z)
| STimestamp (tz : option string) (t : option Z).

(** A column of one dtype. *)
Inductive Column : Type :=
| Float64 (xs : list pyfloat)
| Int64 (xs : list Z)
| Datetime64 (tz : option string) (xs : list Z).

Definition col_len (c : Column) : nat :=
  match c with
  | Float64 xs => length xs
  | Int64 xs => length xs
  | Datetime64 _ xs => length xs
  end.

(** The row axis: yfinance hands out a [DatetimeIndex] (named [Date] for
    daily and coarser bars, [Datetime] for intraday bars);
    [reset_index] leaves a [RangeIndex]. *)
Inductive Index : Type :=
| DatetimeIndex (name : option string) (tz : option string) (i8 : list Z)
| RangeIndex (n : nat).

Definition index_len (i : Index) : nat :=
  match i with
  | DatetimeIndex _ _ xs => length xs
  | RangeIndex n => n
  end.

(** Column labels have two levels, (field, ticker), as in the frames
    yfinance returns; a column added by pandas itself has the empty string
    at the second level. *)
Definition Label : Type := string * string.

Record DataFrame : Type := mkFrame {
  index : Index;
  columns : list (Label * Column)
}.

Definition nrows (data : DataFrame) : nat := index_len (index data).

End Frame.
Export Frame.

(** *** The state monad of a function that works on [data] in place *)

Definition Py (A : Type) : Type := DataFrame -> result A * DataFrame.

#[global] Instance Py_ret : MRet Py := fun _ a data => (Ok a, data).
#[global] Instance Py_bind : MBind Py := fun _ _ f m data =>
  match m data with
  | (Ok a, data') => f a data'
  | (Raise e, data') => (Raise e, data')
  end.

(** A pure, fallible computation inside [Py]. *)
Definition lift {A : Type} (r : result A) : Py A := fun data => (r, data).

(** ** The pandas operations the source calls

    pandas is a library the source imports; each operation is modelled
    from its documented behaviour, as far as the source uses it. *)

Module Pandas.

(** [index.tzinfo] *)
Definition index_tzinfo (i : Index) : result (option string) :=
  match i with
  | DatetimeIndex _ tz _ => Ok tz
  | RangeIndex _ => Raise AttributeError
  end.

(** [index.tz_localize('UTC')]: a zone-naive reading is taken as a UTC
    reading, so the stored instants stay as they are. *)
Definition tz_localize_UTC (i : Index) : result Index :=
  match i with
  | DatetimeIndex name None xs => Ok (DatetimeIndex name (Some "UTC") xs)
  | DatetimeIndex _ (Some _) _ => Raise TypeError
  | RangeIndex _ => Raise AttributeError
  end.

(** [index.tz_convert(zone)]: the instants are kept, the zone is replaced. *)
Definition tz_convert (zone : string) (i : Index) : result Index :=
  match i with
  | DatetimeIndex name (Some _) xs => Ok (DatetimeIndex name (Some zone) xs)
  | DatetimeIndex _ None _ => Raise TypeError
  | RangeIndex _ => Raise AttributeError
  end.

Definition index_name (i : Index) : option string :=
  match i with
  | DatetimeIndex name _ _ => name
  | RangeIndex _ => None
  end.

Definition index_column (i : Index) : Column :=
  match i with
  | DatetimeIndex _ tz xs => Datetime64 tz xs
  | RangeIndex n => Int64 (map Z.of_nat (seq 0 n))
  end.

(** [data.index] read and assigned; the assignment checks the length. *)
Definition get_index : Py Index := fun data => (Ok (index data), data).

Definition set_index (i : Index) : Py unit := fun data =>
  if bool_decide (index_len i = nrows data)
  then (Ok tt, mkFrame i (columns data))
  else (Raise ValueError, data).

(** [data.reset_index(inplace=True)]: the index becomes the first column,
    labelled by its name, or by [index] ([level_0] when [index] is taken)
    when it has none; a label already present is refused. *)
Definition reset_index : Py unit := fun data =>
  let labels := (columns data).*1 in
  let name :=
    match index_name (index data) with
    | Some s => s
    | None => if bool_decide ("index" ∈ labels.*1) then "level_0" else "index"
    end in
  if bool_decide ((name, "") ∈ labels) then (Raise ValueError, data)
  else (Ok tt, mkFrame (RangeIndex (nrows data))
                       (((name, ""), index_column (index data)) :: columns data)).

(** [data.rename(columns={old: new}, inplace=True)], on every level. *)
Definition rename_label (old new s : string) : string :=
  if bool_decide (s = old) then new else s.

Definition rename_columns (old new : string) : Py unit := fun data =>
  (Ok tt, mkFrame (index data)
            (map (fun lc : Label * Column =>
                    ((rename_label old new lc.1.1, rename_label old new lc.1.2), lc.2))
                 (columns data))).

(** [data[key]]: the columns whose first-level label is [key]. A single
    column whose remaining label is empty comes back as a Series, anything
    else as a frame (with the row count of [data]). *)
Inductive Selection : Type :=
| Series (c : Column)
| SubFrame (n : nat) (cs : list Column).

Definition selected (n : nat) (sel : list (Label * Column))
  : result Selection :=
  match sel with
  | [] => Raise KeyError
  | [((_, EmptyString), c)] => Ok (Series c)
  | _ => Ok (SubFrame n sel.*2)
  end.

Definition getitem (key : string) : Py Selection := fun data =>
  (selected (nrows data)
     (filter (fun lc : Label * Column => lc.1.1 = key) (columns data)),
   data).

(** [data[key] = series], the series carrying the row index of [data]:
    the columns under [key] are overwritten, or a new last column
    [(key, "")] is added. *)
Definition setitem (key : string) (c : Column) : Py unit := fun data =>
  if bool_decide (key ∈ (columns data).*1.*1)
  then (Ok tt, mkFrame (index data)
                 (map (fun lc : Label * Column =>
                         if bool_decide (lc.1.1 = key) then (lc.1, c) else lc)
                      (columns data)))
  else (Ok tt, mkFrame (index data) (columns data ++ [((key, ""), c)])).

(** Positional access. [.iloc[i]] takes a row: a scalar out of a Series, a
    Series with one entry per column out of a frame. *)
Inductive Picked : Type :=
| Scalar (v : scalar)
| Row (vs : list scalar).

Definition position (n : nat) (i : Z) : result nat :=
  if (0 <=? i) && (i <? Z.of_nat n) then Ok (Z.to_nat i)
  else if (i <? 0) && (- Z.of_nat n <=? i) then Ok (Z.to_nat (Z.of_nat n + i))
  else Raise IndexError.

Definition cell (c : Column) (k : nat) : option scalar :=
  match c with
  | Float64 xs => SFloat <$> xs !! k
  | Int64 xs => SInt <$> xs !! k
  | Datetime64 tz xs => (fun t => STimestamp tz (Some t)) <$> xs !! k
  end.

Definition iloc (i : Z) (s : Selection) : result Picked :=
  match s with
  | Series c =>
      k ← position (col_len c) i;
      match cell c k with
      | Some v => Ok (Scalar v)
      | None => Raise IndexError
      end
  | SubFrame n cs =>
      k ← position n i;
      match mapM (fun c => cell c k) cs with
      | Some vs => Ok (Row vs)
      | None => Raise IndexError
      end
  end.

(** [.iloc[:, 0]]: the first column of a frame; a Series has one axis. *)
Definition iloc_col0 (s : Selection) : result Column :=
  match s with
  | Series _ => Raise IndexingError
  | SubFrame _ cs =>
      match cs with
      | c :: _ => Ok c
      | [] => Raise IndexError
      end
  end.

(** [.item()]: the one element as a Python scalar. A Timestamp has no
    such method. *)
Definition item (p : Picked) : result scalar :=
  match p with
  | Scalar (STimestamp _ _) => Raise AttributeError
  | Scalar v => Ok v
  | Row [v] => Ok v
  | Row _ => Raise ValueError
  end.

(** Reductions skip NaN. On an empty column pandas answers NaN (NaT for
    timestamps); [calculate_metrics] does not get there, [.iloc[-1]] has
    raised before. *)
Definition fin_values (xs : list pyfloat) : list Q :=
  omap (fun f => match f with Fin q => Some q | NaN => None end) xs.

Definition Qsum (qs : list Q) : Q := foldr Qplus 0%Q qs.
Definition Zsum (zs : list Z) : Z := foldr Z.add 0 zs.

(** The entries of an int64 column are 64-bit two's-complement integers,
    and numpy adds them in 64 bits: a sum that leaves the range
    [-2^63, 2^63) wraps around. [int64_wrap z] is the 64-bit integer that
    is congruent to [z] modulo 2^64. *)
Definition int64_wrap (z : Z) : Z := (z + 2 ^ 63) mod 2 ^ 64 - 2 ^ 63.

Definition extremum {A : Type} (op : A -> A -> A) (xs : list A) : option A :=
  match xs with
  | [] => None
  | x :: rest => Some (fold_left op rest x)
  end.

Definition col_max (c : Column) : scalar :=
  match c with
  | Float64 xs => SFloat (from_option Fin NaN (extremum Qmax (fin_values xs)))
  | Int64 xs => from_option SInt (SFloat NaN) (extremum Z.max xs)
  | Datetime64 tz xs => STimestamp tz (extremum Z.max xs)
  end.

Definition col_min (c : Column) : scalar :=
  match c with
  | Float64 xs => SFloat (from_option Fin NaN (extremum Qmin (fin_values xs)))
  | Int64 xs => from_option SInt (SFloat NaN) (extremum Z.min xs)
  | Datetime64 tz xs => STimestamp tz (extremum Z.min xs)
  end.

Definition col_sum (c : Column) : result scalar :=
  match c with
  | Float64 xs => Ok (SFloat (Fin (Qsum (fin_values xs))))
  | Int64 xs => Ok (SInt (int64_wrap (Zsum xs)))
  | Datetime64 _ _ => Raise TypeError
  end.

Definition max (s : Selection) : Picked :=
  match s with
  | Series c => Scalar (col_max c)
  | SubFrame _ cs => Row (col_max <$> cs)
  end.

Definition min (s : Selection) : Picked :=
  match s with
  | Series c => Scalar (col_min c)
  | SubFrame _ cs => Row (col_min <$> cs)
  end.

Definition sum (s : Selection) : result Picked :=
  match s with
  | Series c => Scalar <$> col_sum c
  | SubFrame _ cs => Row <$> mapM col_sum cs
  end.

End Pandas.

(** ** Python arithmetic on the scalars [.item()] returns *)

Module Python.

Definition float_op (op : Q -> Q -> Q) (a b : pyfloat) : pyfloat :=
  match a, b with
  | Fin x, Fin y => Fin (op x y)
  | _, _ => NaN
  end.

Definition as_float (v : scalar) : option pyfloat :=
  match v with
  | SFloat f => Some f
  | SInt z => Some (Fin (inject_Z z))
  | STimestamp _ _ => None
  end.

Definition is_zero (f : pyfloat) : bool :=
  match f with
  | Fin q => Qeq_bool q 0
  | NaN => false
  end.

(** [a - b] and [a * b]: int with int stays int, a float operand makes the
    result a float. With Timestamp operands line 35 of the source yields a
    Timedelta and line 36 then raises TypeError; the model raises it at the
    first of the two, [calculate_metrics] ends the same way. *)
Definition arith (zop : Z -> Z -> Z) (qop : Q -> Q -> Q) (a b : scalar)
  : result scalar :=
  match a, b with
  | SInt x, SInt y => Ok (SInt (zop x y))
  | _, _ =>
      match as_float a, as_float b with
      | Some x, Some y => Ok (SFloat (float_op qop x y))
      | _, _ => Raise TypeError
      end
  end.

Definition sub : scalar -> scalar -> result scalar := arith Z.sub Qminus.
Definition mul : scalar -> scalar -> result scalar := arith Z.mul Qmult.

(** [a / b], true division: always a float, ZeroDivisionError on a zero
    divisor (also for a NaN dividend). *)
Definition truediv (a b : scalar) : result scalar :=
  match as_float a, as_float b with
  | Some x, Some y =>
      if is_zero y then Raise ZeroDivisionError
      else Ok (SFloat (float_op Qdiv x y))
  | _, _ => Raise TypeError
  end.

End Python.

(** ** The [ta] indicators the source calls

    [ta.trend.sma_indicator(close, window)] is
    [close.rolling(window, min_periods=window).mean()] and
    [ta.trend.ema_indicator(close, window)] is
    [close.ewm(span=window, min_periods=window, adjust=False).mean()]
    (both with the default [fillna=False]). *)

Module Ta.

(** Window functions work on float64 values; pandas refuses a
    datetime column. *)
Definition to_float64 (c : Column) : result (list pyfloat) :=
  match c with
  | Float64 xs => Ok xs
  | Int64 zs => Ok (map (fun z => Fin (inject_Z z)) zs)
  | Datetime64 _ _ => Raise DataError
  end.

(** The rows a window of size [window] ending at row [i] covers. *)
Definition window_at (window i : nat) (xs : list pyfloat) : list pyfloat :=
  take (S i - (S i - window)) (drop (S i - window) xs).

(** [rolling(window, min_periods).mean()]: the mean of the observations
    (non-NaN values) in the window, NaN when there are fewer than
    [min_periods] of them or none. *)
Definition rolling_mean (window min_periods : nat) (xs : list pyfloat)
  : list pyfloat :=
  map (fun i =>
         let obs := Pandas.fin_values (window_at window i xs) in
         let nobs := length obs in
         if (min_periods <=? nobs)%nat && (0 <? nobs)%nat
         then Fin (Pandas.Qsum obs / inject_Z (Z.of_nat nobs))
         else NaN)
      (seq 0 (length xs)).

(** [ewm(alpha, min_periods, adjust=False, ignore_na=False).mean()], the
    loop of pandas' [ewm] aggregation from the second value on: [weighted]
    is the running average, [old_wt] the weight it carries, [nobs] the
    number of observations seen. *)
Fixpoint ewm_loop (alpha : Q) (minp : nat) (weighted : pyfloat) (old_wt : Q)
    (nobs : nat) (vals : list pyfloat) : list pyfloat :=
  match vals with
  | [] => []
  | cur :: rest =>
      let nobs' := match cur with Fin _ => S nobs | NaN => nobs end in
      let '(weighted', old_wt') :=
        match weighted, cur with
        | Fin w, Fin c =>
            let wt := (old_wt * (1 - alpha))%Q in
            (if Qeq_bool w c then Fin w
             else Fin ((wt * w + alpha * c) / (wt + alpha))%Q, 1%Q)
        | Fin w, NaN => (Fin w, (old_wt * (1 - alpha))%Q)
        | NaN, Fin c => (Fin c, old_wt)
        | NaN, NaN => (NaN, old_wt)
        end in
      (if (minp <=? nobs')%nat then weighted' else NaN)
        :: ewm_loop alpha minp weighted' old_wt' nobs' rest
  end.

Definition ewm_mean (span min_periods : nat) (xs : list pyfloat)
  : list pyfloat :=
  match xs with
  | [] => []
  | x0 :: rest =>
      let alpha := (2 / (inject_Z (Z.of_nat span) + 1))%Q in
      let nobs := match x0 with Fin _ => 1%nat | NaN => 0%nat end in
      (if (min_periods <=? nobs)%nat then x0 else NaN)
        :: ewm_loop alpha min_periods x0 1%Q nobs rest
  end.

Definition sma_indicator (close : Column) (window : nat) : result Column :=
  xs ← to_float64 close; Ok (Float64 (rolling_mean window window xs)).

Definition ema_indicator (close : Column) (window : nat) : result Column :=
  xs ← to_float64 close; Ok (Float64 (ewm_mean window window xs)).

End Ta.

(** ** The functions of [stock-dashboard.py]

    Each works on the frame [data] it is given, which is the state of the
    monad; [return data] hands back the reference it was given, so the
    caller finds the result in the state. *)

Import Pandas.

(** Source lines 22-29. *)
Definition process_data : Py unit :=
  tzinfo ← (idx ← get_index; lift (index_tzinfo idx));
  (match tzinfo with
   | None => idx ← get_index; idx ← lift (tz_localize_UTC idx); set_index idx
   | Some _ => mret tt
   end);;
  idx ← get_index; idx ← lift (tz_convert "US/Eastern" idx); set_index idx;;
  reset_index;;
  rename_columns "Date" "Datetime".

(** The tuple [(last_close, change, pct_change, high, low, volume)]. *)
Definition Metrics : Type := scalar * scalar * scalar * scalar * scalar * scalar.

(** Source lines 31-40. The [/] of line 36 is a parameter of the body, so
    that what the function does with a zero divisor can be told apart from
    what the operator does with it. *)
Section Metrics.
Variable truediv : scalar -> scalar -> result scalar.

Definition calculate_metrics_with : Py Metrics :=
  last_close ← (col ← getitem "Close"; lift (iloc (-1) col ≫= item));
  prev_close ← (col ← getitem "Close"; lift (iloc 0 col ≫= item));
  change ← lift (Python.sub last_close prev_close);
  pct_change ← lift (q ← truediv change prev_close; Python.mul q (SInt 100));
  high ← (col ← getitem "High"; lift (item (max col)));
  low ← (col ← getitem "Low"; lift (item (min col)));
  volume ← (col ← getitem "Volume"; lift (sum col ≫= item));
  mret (last_close, change, pct_change, high, low, volume).

End Metrics.

Definition calculate_metrics : Py Metrics :=
  calculate_metrics_with Python.truediv.

(** Source lines 42-48. *)
Definition add_technical_indicators : Py unit :=
  sma ← (col ← getitem "Close";
         lift (close ← iloc_col0 col; Ta.sma_indicator close 20));
  setitem "SMA_20" sma;;
  ema ← (col ← getitem "Close";
         lift (close ← iloc_col0 col; Ta.ema_indicator close 20));
  setitem "EMA_20" ema.

(** ** The period to interval table (source lines 62-68) *)

Definition interval_mapping : gmap string string :=
  <["1d" := "1m"]> (<["1wk" := "30m"]> (<["1mo" := "1d"]>
    (<["1y" := "1wk"]> (<["max" := "1wk"]> ∅)))).

(** ** Bars, and the tables that hold them

    What the provider returns for one ticker, and what the pipeline makes
    of it. *)

Record Bar : Type := mkBar {
  timestamp : Z;
  bar_open : Q;
  bar_high : Q;
  bar_low : Q;
  bar_close : Q;
  bar_volume : Z
}.

Definition prices (field : Bar -> Q) (series : list Bar) : Column :=
  Float64 (map (fun b => Fin (field b)) series).

Definition bar_columns (ticker : string) (series : list Bar)
  : list (Label * Column) :=
  [ (("Close", ticker), prices bar_close series);
    (("High", ticker), prices bar_high series);
    (("Low", ticker), prices bar_low series);
    (("Open", ticker), prices bar_open series);
    (("Volume", ticker), Int64 (map bar_volume series)) ].

(** The frame [yf.download] returns: the timestamps are the index, named
    [name], zone-naive ([tz = None]) or zone-aware. *)
Definition provider_frame (name : string) (tz : option string)
    (ticker : string) (series : list Bar) : DataFrame :=
  mkFrame (DatetimeIndex (Some name) tz (map timestamp series))
          (bar_columns ticker series).

(** The canonical table: positional index, the timestamps in a first
    column [Datetime] in the reference zone, then the bar columns. *)
Definition canonical_frame (ticker : string) (series : list Bar) : DataFrame :=
  mkFrame (RangeIndex (length series))
          ((("Datetime", ""), Datetime64 (Some "US/Eastern") (map timestamp series))
             :: bar_columns ticker series).

(** The canonical table with its two indicator columns. *)
Definition indicator_frame (ticker : string) (series : list Bar) : DataFrame :=
  mkFrame (RangeIndex (length series))
          (columns (canonical_frame ticker series) ++
           [ (("SMA_20", ""),
              Float64 (Ta.rolling_mean 20 20 (map (fun b => Fin (bar_close b)) series)));
             (("EMA_20", ""),
              Float64 (Ta.ewm_mean 20 20 (map (fun b => Fin (bar_close b)) series))) ]).

(** What [data[key]] is for a column labelled [(key, ticker)]. *)
Definition selection (ticker : string) (n : nat) (c : Column) : Selection :=
  match ticker with
  | EmptyString => Series c
  | _ => SubFrame n [c]
  end.

(** The last bar of the series [first :: rest]. *)
Definition final_bar (first : Bar) (rest : list Bar) : Bar :=
  default first (last rest).

(** The tuple [calculate_metrics] returns for the series [first :: rest],
    given the two floats it computes, [change] and [pct_change]: the last
    close, the highest high and the lowest low are read off the columns,
    the volume is the 64-bit sum of the Volume column. *)
Definition series_metrics (first : Bar) (rest : list Bar)
    (change pct_change : Q) : Metrics :=
  (SFloat (Fin (bar_close (final_bar first rest))),
   SFloat (Fin change),
   SFloat (Fin pct_change),
   SFloat (Fin (fold_left Qmax (map bar_high rest) (bar_high first))),
   SFloat (Fin (fold_left Qmin (map bar_low rest) (bar_low first))),
   SInt (int64_wrap (Zsum (map bar_volume (first :: rest))))).

(** A division operator that differs from Python's at most on a zero
    divisor, and what it means for the metrics computation to guard its
    division on [data]: the outcome does not depend on what the operator
    does with a zero divisor, because it is never asked. *)
Definition nonzero (v : scalar) : Prop :=
  forall y, Python.as_float v = Some y -> Python.is_zero y = false.

Definition agrees_off_zero (div : scalar -> scalar -> result scalar) : Prop :=
  forall a b, nonzero b -> div a b = Python.truediv a b.

Definition guards_division (data : DataFrame) : Prop :=
  forall div, agrees_off_zero div ->
    calculate_metrics_with div data = calculate_metrics data.

(** numpy's float division, which answers NaN where Python raises. *)
Definition np_truediv (a b : scalar) : result scalar :=
  match Python.as_float a, Python.as_float b with
  | Some x, Some y =>
      if Python.is_zero y then Ok (SFloat NaN)
      else Ok (SFloat (Python.float_op Qdiv x y))
  | _, _ => Raise TypeError
  end.

(** Sample bars: a rising series, and a bar whose close is zero. *)
Definition bar_at (t : Z) (c : Q) (v : Z) : Bar := mkBar t c (c + 1) (c - 1) c v.
Definition rising : list Bar :=
  [bar_at 1700000000 100 500; bar_at 1700000060 105 300; bar_at 1700000120 110 200].
Definition zero_close : Bar := mkBar 1700000000 1 2 0 0 500.

(** Two bars whose volumes, 2^62 each, add up to 2^63. *)
Definition heavy : list Bar :=
  [bar_at 1700000000 100 (2 ^ 62); bar_at 1700000060 105 (2 ^ 62)].

(** Twenty bars whose closes are 1, 2, ..., 20. *)
Definition ramp : list Bar :=
  (fun k => bar_at (1700000000 + 60 * k) (inject_Z k) 100) <$> seqZ 1 20.

(** The first-level labels of a table. *)
Definition fields (data : DataFrame) : list string := (columns data).*1.*1.

(** A computation that leaves the table as it found it, whatever it
    answers. *)
Definition readonly {A : Type} (m : Py A) : Prop :=
  forall data, (m data).2 = data.

(** The recurrence of the specification, EMA[i] = close[i] * alpha +
    EMA[i-1] * (1 - alpha), started from the first close. *)
Fixpoint ema_from (alpha prev : Q) (closes : list Q) : list Q :=
  match closes with
  | [] => []
  | c :: rest =>
      let e := (c * alpha + prev * (1 - alpha))%Q in
      e :: ema_from alpha e rest
  end.

Definition ema_first_seeded (alpha : Q) (closes : list Q) : list Q :=
  match closes with
  | [] => []
  | c :: rest => c :: ema_from alpha c rest
  end.

(** ** The rest of the script: fetching, and the refresh of lines 71-76 *)

(** What [yf.download] is asked for: a ticker, an interval, and either a
    date range ([start], [end]) or a period. *)
Inductive Window : Type :=
| Dates (start_date end_date : Z)
| Period (period : string).

Record Request : Type := mkRequest {
  req_ticker : string;
  req_window : Window;
  req_interval : string
}.

(** [timedelta(days=n)], in microseconds, the resolution of [datetime]. *)
Definition timedelta_days (n : Z) : Z := n * 86400 * 1000000.

(** Source lines 12-20. The clock ([datetime.now()], in microseconds) and
    the provider ([yf.download]) are the two things the function reads
    from outside. *)
Section Fetch.
Variable now : Z.
Variable download : Request -> result DataFrame.

Definition get_stock_data (ticker period interval : string)
  : result DataFrame :=
  let end_date := now in
  if bool_decide (period = "1wk") then
    let start_date := end_date - timedelta_days 7 in
    download (mkRequest ticker (Dates start_date end_date) interval)
  else
    download (mkRequest ticker (Period period) interval).

(** The three steps of lines 73-76 on the table that was fetched. *)
Definition pipeline : Py Metrics :=
  process_data;; add_technical_indicators;; calculate_metrics.

(** Source lines 72-76, what the Update button runs before it renders: an
    exception of any step ends the run. *)
Definition update (ticker time_period : string) : result (Metrics * DataFrame) :=
  interval ← from_option Ok (Raise KeyError) (interval_mapping !! time_period);
  data ← get_stock_data ticker time_period interval;
  match pipeline data with
  | (Ok metrics, data') => Ok (metrics, data')
  | (Raise e, _) => Raise e
  end.

End Fetch.

(** The options of the two sidebar widgets of lines 57 and 59. *)
Definition time_periods : list string := ["1d"; "1wk"; "1mo"; "1y"].
Definition indicator_options : list string := ["SMA_20"; "EMA_20"].

(** Source lines 99-105: one Scatter trace per selected indicator, added to
    the figure (the list of its traces) in the order of the selection. *)
Record Trace : Type := mkTrace {
  trace_x : Selection;
  trace_y : Selection;
  trace_name : string;
  trace_yaxis : option string
}.

Definition scatter (column name : string) (yaxis : option string)
  : Py Trace :=
  x ← getitem "Datetime"; y ← getitem column;
  mret (mkTrace x y name yaxis).

Fixpoint add_indicator_traces (indicators : list string) (fig : list Trace)
  : Py (list Trace) :=
  match indicators with
  | [] => mret fig
  | indicator :: rest =>
      fig ← (if bool_decide (indicator = "SMA_20") then
               t ← scatter "SMA_20" "SMA 20" None; mret (fig ++ [t])
             else if bool_decide (indicator = "EMA_20") then
               t ← scatter "EMA_20" "EMA 20" None; mret (fig ++ [t])
             else if bool_decide (indicator = "RSI") then
               t ← scatter "RSI" "RSI" (Some "y2"); mret (fig ++ [t])
             else mret fig);
      add_indicator_traces rest fig
  end.

(** The metrics as a function of the four blocks they read. *)
Definition metrics_of (truediv : scalar -> scalar -> result scalar)
    (block : string -> result Selection) : result Metrics :=
  last_close ← (col ← block "Close"; iloc (-1) col ≫= item);
  prev_close ← (col ← block "Close"; iloc 0 col ≫= item);
  change ← Python.sub last_close prev_close;
  pct_change ← (q ← truediv change prev_close; Python.mul q (SInt 100));
  high ← (col ← block "High"; item (max col));
  low ← (col ← block "Low"; item (min col));
  volume ← (col ← block "Volume"; sum col ≫= item);
  Ok (last_close, change, pct_change, high, low, volume).

(** A bar whose close lies between its low and its high and whose volume
    is a count. *)
Definition well_formed (bar : Bar) : Prop :=
  (bar_low bar <= bar_close bar)%Q /\ (bar_close bar <= bar_high bar)%Q
  /\ 0 <= bar_volume bar.

(** A computation that only reads the table: it answers [r data] and
    leaves [data] as it is. *)
Definition reads {A : Type} (m : Py A) (r : DataFrame -> result A) : Prop :=
  forall data, m data = (r data, data).

(** Every column of [data] under the field [key] holds [c], and there is
    one. *)
Definition filled (key : string) (c : Column) (data : DataFrame) : Prop :=
  key ∈ fields data
  /\ Forall (fun lc : Label * Column => lc.1.1 = key -> lc.2 = c) (columns data).

(** The trace lines 101 and 103 add for the indicator column [indicator]
    of the table the pipeline leaves. *)
Definition indicator_trace (ticker : string) (series : list Bar)
    (indicator : string) : Trace :=
  let closes := map (fun b => Fin (bar_close b)) series in
  mkTrace
    (Series (Datetime64 (Some "US/Eastern") (map timestamp series)))
    (Series (Float64 (if bool_decide (indicator = "SMA_20")
                      then Ta.rolling_mean 20 20 closes
                      else Ta.ewm_mean 20 20 closes)))
    (if bool_decide (indicator = "SMA_20") then "SMA 20" else "EMA 20")
    None.

(** * Properties *)

(** C5: the table has the five entries 1d -> 1m, 1wk -> 30m, 1mo -> 1d,
    1y -> 1wk and max -> 1wk, and no entry for any other key. *)
Theorem interval_mapping_exact (period : string) :
  interval_mapping !! period =
    if decide (period = "1d") then Some "1m"
    else if decide (period = "1wk") then Some "30m"
    else if decide (period = "1mo") then Some "1d"
    else if decide (period = "1y") then Some "1wk"
    else if decide (period = "max") then Some "1wk"
    else None.
Proof.
  unfold interval_mapping.
  repeat case_decide; subst; simplify_map_eq; done.
Qed.

(** ** Reading the canonical table *)

Section Canonical.
Variables (ticker : string) (series : list Bar).

Lemma getitem_Close :
  getitem "Close" (canonical_frame ticker series)
  = (Ok (selection ticker (length series) (prices bar_close series)),
     canonical_frame ticker series).
Proof. destruct ticker; reflexivity. Qed.

Lemma getitem_High :
  getitem "High" (canonical_frame ticker series)
  = (Ok (selection ticker (length series) (prices bar_high series)),
     canonical_frame ticker series).
Proof. destruct ticker; reflexivity. Qed.

Lemma getitem_Low :
  getitem "Low" (canonical_frame ticker series)
  = (Ok (selection ticker (length series) (prices bar_low series)),
     canonical_frame ticker series).
Proof. destruct ticker; reflexivity. Qed.

Lemma getitem_Volume :
  getitem "Volume" (canonical_frame ticker series)
  = (Ok (selection ticker (length series) (Int64 (map bar_volume series))),
     canonical_frame ticker series).
Proof. destruct ticker; reflexivity. Qed.

End Canonical.

Lemma position_first n : position (S n) 0 = Ok 0%nat.
Proof. reflexivity. Qed.

Lemma position_last n : position (S n) (-1) = Ok n.
Proof.
  unfold position.
  replace (0 <=? -1) with false by reflexivity.
  replace (-1 <? 0) with true by reflexivity.
  assert ((- Z.of_nat (S n) <=? -1) = true) as -> by (apply Z.leb_le; lia).
  cbn [andb]. f_equal. lia.
Qed.

Lemma position_empty i : position 0 i = Raise IndexError.
Proof.
  unfold position.
  change (Z.of_nat 0) with 0.
  destruct (Z.leb_spec 0 i), (Z.ltb_spec i 0), (Z.leb_spec (- 0) i);
    try reflexivity; lia.
Qed.

Lemma fin_values_Fin {A : Type} (f : A -> Q) (l : list A) :
  fin_values (map (fun a => Fin (f a)) l) = map f l.
Proof. induction l as [|a l IH]; [reflexivity|]. cbn. f_equal. exact IH. Qed.

Lemma last_cons_default {A : Type} (x : A) (l : list A) :
  last (x :: l) = Some (default x (last l)).
Proof.
  revert x. induction l as [|y l IH]; intros x; [reflexivity|].
  change (last (x :: y :: l)) with (last (y :: l)). rewrite IH. reflexivity.
Qed.

Lemma lookup_last_cons {A : Type} (x : A) (l : list A) :
  (x :: l) !! length l = Some (default x (last l)).
Proof.
  rewrite <- last_cons_default, last_lookup. reflexivity.
Qed.

(** ** The metrics of a canonical table *)

Lemma map_fmap {A B : Type} (f : A -> B) (l : list A) : map f l = f <$> l.
Proof. reflexivity. Qed.

Lemma cell_prices_first f first rest :
  cell (prices f (first :: rest)) 0 = Some (SFloat (Fin (f first))).
Proof. reflexivity. Qed.

Lemma cell_prices_last f first rest :
  cell (prices f (first :: rest)) (length rest)
  = Some (SFloat (Fin (f (final_bar first rest)))).
Proof.
  unfold prices. cbn [cell]. rewrite map_fmap, list_lookup_fmap.
  rewrite lookup_last_cons. reflexivity.
Qed.

Lemma col_len_prices f series : col_len (prices f series) = length series.
Proof. apply length_map. Qed.

Lemma iloc_item_selection t n c i k v :
  position n i = Ok k -> col_len c = n -> cell c k = Some v ->
  (forall tz ts, v <> STimestamp tz ts) ->
  iloc i (selection t n c) ≫= item = Ok v.
Proof.
  intros Hpos Hlen Hcell Hv.
  destruct t; cbn [selection iloc].
  - rewrite Hlen, Hpos. cbn. rewrite Hcell. cbn.
    destruct v; try reflexivity. by destruct (Hv tz t).
  - rewrite Hpos. cbn. rewrite Hcell. reflexivity.
Qed.

Lemma item_max_prices t n f first rest :
  item (max (selection t n (prices f (first :: rest))))
  = Ok (SFloat (Fin (fold_left Qmax (map f rest) (f first)))).
Proof.
  destruct t; cbn [selection max fmap list_fmap item col_max prices];
    rewrite fin_values_Fin; reflexivity.
Qed.

Lemma item_min_prices t n f first rest :
  item (min (selection t n (prices f (first :: rest))))
  = Ok (SFloat (Fin (fold_left Qmin (map f rest) (f first)))).
Proof.
  destruct t; cbn [selection min fmap list_fmap item col_min prices];
    rewrite fin_values_Fin; reflexivity.
Qed.

Lemma item_sum_volume t n zs :
  sum (selection t n (Int64 zs)) ≫= item = Ok (SInt (int64_wrap (Zsum zs))).
Proof. destruct t; reflexivity. Qed.

Lemma calculate_metrics_with_canonical div ticker first rest
    (data := canonical_frame ticker (first :: rest))
    (final := final_bar first rest)
    (change := (bar_close final - bar_close first)%Q) :
  calculate_metrics_with div data
  = (pct_change ← (q ← div (SFloat (Fin change)) (SFloat (Fin (bar_close first)));
                    Python.mul q (SInt 100));
     Ok (SFloat (Fin (bar_close final)), SFloat (Fin change), pct_change,
         SFloat (Fin (fold_left Qmax (map bar_high rest) (bar_high first))),
         SFloat (Fin (fold_left Qmin (map bar_low rest) (bar_low first))),
         SInt (int64_wrap (Zsum (map bar_volume (first :: rest))))),
     data).
Proof.
  unfold calculate_metrics_with, mbind, Py_bind, lift, data.
  rewrite getitem_Close.
  rewrite (iloc_item_selection ticker _ _ (-1) (length rest)
             (SFloat (Fin (bar_close final))));
    [| apply position_last | apply col_len_prices | apply cell_prices_last | done ].
  rewrite getitem_Close.
  rewrite (iloc_item_selection ticker _ _ 0 0%nat
             (SFloat (Fin (bar_close first))));
    [| apply position_first | apply col_len_prices | apply cell_prices_first | done ].
  cbn [Python.sub Python.arith Python.as_float Python.float_op].
  fold change.
  destruct (result_bind _ _ _ (div _ _)) as [pct|e]; [|reflexivity].
  rewrite getitem_High, item_max_prices.
  rewrite getitem_Low, item_min_prices.
  rewrite getitem_Volume.
  change (result_bind Picked scalar item ?m) with (m ≫= item).
  rewrite item_sum_volume. reflexivity.
Qed.

Lemma calculate_metrics_canonical ticker first rest
    (data := canonical_frame ticker (first :: rest))
    (change := (bar_close (final_bar first rest) - bar_close first)%Q) :
  calculate_metrics data
  = (if Qeq_bool (bar_close first) 0 then Raise ZeroDivisionError
     else Ok (series_metrics first rest change
                (change / bar_close first * 100)), data).
Proof.
  unfold calculate_metrics, data.
  rewrite calculate_metrics_with_canonical.
  cbn [Python.truediv Python.as_float Python.is_zero].
  destruct (Qeq_bool (bar_close first) 0); reflexivity.
Qed.

Lemma calculate_metrics_empty ticker :
  calculate_metrics (canonical_frame ticker [])
  = (Raise IndexError, canonical_frame ticker []).
Proof. destruct ticker; reflexivity. Qed.

Lemma Qeq_bool_false (x y : Q) : ~ (x == y)%Q -> Qeq_bool x y = false.
Proof.
  intros H. destruct (Qeq_bool x y) eqn:E; [|reflexivity].
  by apply Qeq_bool_iff in E.
Qed.

Lemma Qeq_bool_true (x y : Q) : (x == y)%Q -> Qeq_bool x y = true.
Proof. apply Qeq_bool_iff. Qed.

(** With the numpy operator in place of Python's, a zero reference close
    gives metrics where Python raises. *)
Lemma np_truediv_agrees : agrees_off_zero np_truediv.
Proof.
  intros a c Hc. unfold np_truediv, Python.truediv.
  destruct (Python.as_float a) as [x|]; [|reflexivity].
  destruct (Python.as_float c) as [y|] eqn:E; [|reflexivity].
  rewrite (Hc y E). reflexivity.
Qed.

Lemma zero_close_unguarded ticker first rest :
  (bar_close first == 0)%Q ->
  ~ guards_division (canonical_frame ticker (first :: rest)).
Proof.
  intros Hz Hg. specialize (Hg np_truediv np_truediv_agrees).
  rewrite calculate_metrics_with_canonical, calculate_metrics_canonical in Hg.
  cbn [np_truediv Python.as_float Python.is_zero] in Hg.
  rewrite (Qeq_bool_true _ _ Hz) in Hg. discriminate.
Qed.

Lemma nonzero_close_guarded ticker first rest :
  ~ (bar_close first == 0)%Q ->
  guards_division (canonical_frame ticker (first :: rest)).
Proof.
  intros Hnz div Hdiv. unfold calculate_metrics.
  rewrite !calculate_metrics_with_canonical. rewrite Hdiv; [reflexivity|].
  intros y [= <-]. cbn. by apply Qeq_bool_false.
Qed.

(** ** Failure and success of the metrics *)

(** C1, as the code has it: on an empty Series [calculate_metrics] fails,
    with the IndexError of [.iloc[-1]] (the code has no error class of its
    own); on a non-empty Series (its first close is not zero: in the data
    model prices are positive) it succeeds and returns the full tuple of
    metrics: the last close, a change and a percent change, the highest
    high, the lowest low and the volume. In both cases the table is left
    as it was. *)
Theorem calculate_metrics_empty_or_metrics (ticker : string) :
  calculate_metrics (canonical_frame ticker [])
    = (Raise IndexError, canonical_frame ticker [])
  /\ forall first rest,
       ~ (bar_close first == 0)%Q ->
       exists change pct_change,
         calculate_metrics (canonical_frame ticker (first :: rest))
         = (Ok (series_metrics first rest change pct_change),
            canonical_frame ticker (first :: rest)).
Proof.
  split; [apply calculate_metrics_empty|].
  intros first rest Hnz. rewrite calculate_metrics_canonical.
  rewrite (Qeq_bool_false _ _ Hnz). by do 2 eexists.
Qed.

Lemma calculate_metrics_empty_or_metrics_witness :
  ~ (bar_close (bar_at 1700000000 100 500) == 0)%Q
  /\ exists change pct_change,
       calculate_metrics (canonical_frame "AAPL" rising)
       = (Ok (series_metrics (bar_at 1700000000 100 500)
                [bar_at 1700000060 105 300; bar_at 1700000120 110 200]
                change pct_change),
          canonical_frame "AAPL" rising).
Proof.
  assert (H : ~ (bar_close (bar_at 1700000000 100 500) == 0)%Q)
    by (intros E; vm_compute in E; discriminate E).
  split; [exact H|].
  exact (proj2 (calculate_metrics_empty_or_metrics "AAPL") _ _ H).
Defined.

(** C1 as stated fails: on the empty Series [calculate_metrics] fails
    with an exception of the class IndexError, which is not
    EmptyInputError; no exception the code can raise has that class. *)
Lemma calculate_metrics_empty_not_EmptyInputError :
  exists e,
    calculate_metrics (canonical_frame "AAPL" [])
    = (Raise e, canonical_frame "AAPL" [])
    /\ error_name e = "IndexError"
    /\ error_name e <> "EmptyInputError"
    /\ forall e', error_name e' <> "EmptyInputError".
Proof.
  exists IndexError. split; [reflexivity|]. split; [reflexivity|].
  split; [discriminate|]. intros e'. by destruct e'.
Qed.

(** ** The zero reference close *)

(** C2, as the code has it: with a zero first close the division of line
    36 is carried out and raises ZeroDivisionError, which ends the whole
    call; nothing guards it, the outcome is the operator's. *)
Theorem zero_reference_close_raises (ticker : string) (first : Bar)
    (rest : list Bar) :
  (bar_close first == 0)%Q ->
  calculate_metrics (canonical_frame ticker (first :: rest))
    = (Raise ZeroDivisionError, canonical_frame ticker (first :: rest))
  /\ ~ guards_division (canonical_frame ticker (first :: rest)).
Proof.
  intros Hz. split; [|by apply zero_close_unguarded].
  rewrite calculate_metrics_canonical. by rewrite (Qeq_bool_true _ _ Hz).
Qed.

Lemma zero_reference_close_raises_witness :
  (bar_close zero_close == 0)%Q
  /\ calculate_metrics (canonical_frame "AAPL" [zero_close])
     = (Raise ZeroDivisionError, canonical_frame "AAPL" [zero_close])
  /\ ~ guards_division (canonical_frame "AAPL" [zero_close]).
Proof.
  assert (H : (bar_close zero_close == 0)%Q) by reflexivity.
  split; [exact H|].
  exact (zero_reference_close_raises "AAPL" zero_close [] H).
Defined.

(** C2 as stated fails: on the one-bar Series [zero_close] the division is
    not guarded. *)
Lemma zero_reference_close_not_guarded :
  ~ guards_division (canonical_frame "AAPL" [zero_close]).
Proof. apply zero_close_unguarded. reflexivity. Qed.

(** ** High, low and volume *)

Lemma fold_Qmax_ge_init (qs : list Q) (q : Q) : (q <= fold_left Qmax qs q)%Q.
Proof.
  revert q. induction qs as [|x qs IH]; intros q; cbn; [apply Qle_refl|].
  eapply Qle_trans; [apply Q.le_max_l | apply IH].
Qed.

Lemma fold_Qmax_ge (qs : list Q) (q x : Q) :
  x ∈ q :: qs -> (x <= fold_left Qmax qs q)%Q.
Proof.
  revert q. induction qs as [|y qs IH]; intros q Hx.
  - apply list_elem_of_singleton in Hx as ->. apply Qle_refl.
  - cbn. apply elem_of_cons in Hx as [->|Hx].
    + eapply Qle_trans; [apply Q.le_max_l | apply fold_Qmax_ge_init].
    + apply elem_of_cons in Hx as [->|Hx].
      * eapply Qle_trans; [apply Q.le_max_r | apply fold_Qmax_ge_init].
      * apply IH. by right.
Qed.

Lemma fold_Qmin_le_init (qs : list Q) (q : Q) : (fold_left Qmin qs q <= q)%Q.
Proof.
  revert q. induction qs as [|x qs IH]; intros q; cbn; [apply Qle_refl|].
  eapply Qle_trans; [apply IH | apply Q.le_min_l].
Qed.

Lemma fold_Qmin_le (qs : list Q) (q x : Q) :
  x ∈ q :: qs -> (fold_left Qmin qs q <= x)%Q.
Proof.
  revert q. induction qs as [|y qs IH]; intros q Hx.
  - apply list_elem_of_singleton in Hx as ->. apply Qle_refl.
  - cbn. apply elem_of_cons in Hx as [->|Hx].
    + eapply Qle_trans; [apply fold_Qmin_le_init | apply Q.le_min_l].
    + apply elem_of_cons in Hx as [->|Hx].
      * eapply Qle_trans; [apply fold_Qmin_le_init | apply Q.le_min_r].
      * apply IH. by right.
Qed.

Lemma int64_wrap_fits z : - 2 ^ 63 <= z < 2 ^ 63 -> int64_wrap z = z.
Proof. intros Hz. unfold int64_wrap. rewrite Z.mod_small; lia. Qed.

(** C8, as the code has it: for a non-empty canonical Series (its prices
    are not zero) the high metric is at least every bar's high and the low
    metric at most every bar's low; the volume metric is the sum of the
    bars' volumes taken in 64-bit integers, so it is that sum whenever the
    sum fits in 64 bits, and the sum wrapped around otherwise. *)
Theorem metrics_high_low_volume (ticker : string) (first : Bar)
    (rest : list Bar) :
  ~ (bar_close first == 0)%Q ->
  exists last_close change pct_change high low volume,
    calculate_metrics (canonical_frame ticker (first :: rest))
    = (Ok (last_close, change, pct_change,
           SFloat (Fin high), SFloat (Fin low), SInt volume),
       canonical_frame ticker (first :: rest))
    /\ (forall bar, bar ∈ first :: rest ->
          (bar_high bar <= high)%Q /\ (low <= bar_low bar)%Q)
    /\ volume = int64_wrap (Zsum (bar_volume <$> first :: rest))
    /\ (- 2 ^ 63 <= Zsum (bar_volume <$> first :: rest) < 2 ^ 63 ->
        volume = Zsum (bar_volume <$> first :: rest)).
Proof.
  intros Hnz. rewrite calculate_metrics_canonical, (Qeq_bool_false _ _ Hnz).
  do 6 eexists. split; [reflexivity|]. split; [|split].
  - intros bar Hbar. split.
    + rewrite map_fmap. apply fold_Qmax_ge.
      rewrite <- fmap_cons. by apply list_elem_of_fmap_2.
    + rewrite map_fmap. apply fold_Qmin_le.
      rewrite <- fmap_cons. by apply list_elem_of_fmap_2.
  - reflexivity.
  - intros Hfits. rewrite map_fmap. by apply int64_wrap_fits.
Qed.

Lemma metrics_high_low_volume_witness :
  ~ (bar_close (bar_at 1700000000 100 500) == 0)%Q
  /\ exists last_close change pct_change high low volume,
    calculate_metrics (canonical_frame "AAPL" rising)
    = (Ok (last_close, change, pct_change,
           SFloat (Fin high), SFloat (Fin low), SInt volume),
       canonical_frame "AAPL" rising)
    /\ (forall bar, bar ∈ rising ->
          (bar_high bar <= high)%Q /\ (low <= bar_low bar)%Q)
    /\ volume = int64_wrap (Zsum (bar_volume <$> rising))
    /\ (- 2 ^ 63 <= Zsum (bar_volume <$> rising) < 2 ^ 63 ->
        volume = Zsum (bar_volume <$> rising)).
Proof.
  assert (H : ~ (bar_close (bar_at 1700000000 100 500) == 0)%Q)
    by (intros E; vm_compute in E; discriminate E).
  split; [exact H|].
  exact (metrics_high_low_volume "AAPL" _ _ H).
Defined.

(** C8 as stated fails: for the two bars of [heavy], each with a volume
    of 2^62 (a 64-bit integer), the volume metric is -2^63, which is not
    the sum of the two volumes, 2^63. *)
Lemma volume_sum_wraps :
  Forall (fun bar => 0 <= bar_volume bar < 2 ^ 63) heavy
  /\ Zsum (bar_volume <$> heavy) = 2 ^ 63
  /\ exists last_close change pct_change high low,
       calculate_metrics (canonical_frame "AAPL" heavy)
       = (Ok (last_close, change, pct_change, high, low, SInt (- 2 ^ 63)),
          canonical_frame "AAPL" heavy).
Proof.
  split; [repeat constructor; by vm_compute|]. split; [reflexivity|].
  unfold heavy. rewrite calculate_metrics_canonical.
  do 5 eexists. reflexivity.
Qed.

(** ** Percent change *)

Lemma pct_zero_iff (final first : Q) :
  ~ (first == 0)%Q ->
  ((final - first) / first * 100 == 0 <-> final == first)%Q.
Proof.
  intros Hnz. split; intros H.
  - assert (Hq : ((final - first) / first == 0)%Q) by lra.
    assert (Hd : (final - first == (final - first) / first * first)%Q)
      by (field; exact Hnz).
    rewrite Hq in Hd. lra.
  - rewrite H. unfold Qminus. rewrite Qplus_opp_r. unfold Qdiv.
    rewrite !Qmult_0_l. reflexivity.
Qed.

(** C9: for a non-empty canonical Series whose reference (first) close is
    not zero, the percent change is zero exactly when the last close
    equals the first close; and from a first close of 100 to a last close
    of 110 the change is 10 and the percent change is 10. *)
Theorem pct_change_zero_iff_unchanged (ticker : string) (first : Bar)
    (rest : list Bar) :
  ~ (bar_close first == 0)%Q ->
  exists change pct_change high low volume,
    calculate_metrics (canonical_frame ticker (first :: rest))
    = (Ok (SFloat (Fin (bar_close (final_bar first rest))),
           SFloat (Fin change), SFloat (Fin pct_change), high, low, volume),
       canonical_frame ticker (first :: rest))
    /\ (pct_change == 0 <-> bar_close (final_bar first rest) == bar_close first)%Q
    /\ ((bar_close first == 100)%Q ->
        (bar_close (final_bar first rest) == 110)%Q ->
        (change == 10)%Q /\ (pct_change == 10)%Q).
Proof.
  intros Hnz. rewrite calculate_metrics_canonical, (Qeq_bool_false _ _ Hnz).
  do 5 eexists. split; [reflexivity|]. split.
  - by apply pct_zero_iff.
  - intros H100 H110. rewrite H110, H100. split; reflexivity.
Qed.

Lemma pct_change_zero_iff_unchanged_witness :
  ~ (bar_close (bar_at 1700000000 100 500) == 0)%Q
  /\ exists change pct_change high low volume,
    calculate_metrics (canonical_frame "AAPL" rising)
    = (Ok (SFloat (Fin 110), SFloat (Fin change), SFloat (Fin pct_change),
           high, low, volume),
       canonical_frame "AAPL" rising)
    /\ (pct_change == 0 <-> 110 == 100)%Q
    /\ ((100 == 100)%Q -> (110 == 110)%Q ->
        (change == 10)%Q /\ (pct_change == 10)%Q).
Proof.
  assert (H : ~ (bar_close (bar_at 1700000000 100 500) == 0)%Q)
    by (intros E; vm_compute in E; discriminate E).
  split; [exact H|].
  exact (pct_change_zero_iff_unchanged "AAPL" _ _ H).
Defined.

(** ** The normalizer *)

Lemma process_data_DatetimeIndex name tz xs cols
    (label := default (if bool_decide ("index" ∈ cols.*1.*1)
                       then "level_0" else "index") name) :
  (label, "") ∉ cols.*1 ->
  process_data (mkFrame (DatetimeIndex name tz xs) cols)
  = (Ok tt,
     mkFrame (RangeIndex (length xs))
       (map (fun lc : Label * Column =>
               ((rename_label "Date" "Datetime" lc.1.1,
                 rename_label "Date" "Datetime" lc.1.2), lc.2))
            (((label, ""), Datetime64 (Some "US/Eastern") xs) :: cols))).
Proof.
  intros Hfresh.
  assert (Hreset : forall zone,
    reset_index (mkFrame (DatetimeIndex name (Some zone) xs) cols)
    = (Ok tt, mkFrame (RangeIndex (length xs))
                (((label, ""), Datetime64 (Some zone) xs) :: cols))).
  { intros zone. unfold reset_index. cbn [index columns index_name nrows
      index_len index_column].
    destruct name as [s|]; cbn [default] in *;
      by rewrite (bool_decide_false _ Hfresh). }
  unfold process_data, mbind, mret, Py_bind, Py_ret, lift, get_index, set_index.
  destruct tz as [zone|]; cbn [index columns index_tzinfo tz_localize_UTC
    tz_convert nrows index_len];
    rewrite ?bool_decide_true by reflexivity;
    cbn [index columns index_tzinfo tz_localize_UTC tz_convert nrows index_len];
    rewrite ?bool_decide_true by reflexivity;
    rewrite Hreset; reflexivity.
Qed.

Lemma process_data_RangeIndex data n :
  index data = RangeIndex n -> process_data data = (Raise AttributeError, data).
Proof.
  intros H. unfold process_data, mbind, Py_bind, lift, get_index.
  rewrite H. reflexivity.
Qed.

Lemma process_data_leaves_RangeIndex data data' :
  process_data data = (Ok tt, data') -> exists n, index data' = RangeIndex n.
Proof.
  destruct data as [[name tz xs|n] cols].
  - destruct (decide ((default (if bool_decide ("index" ∈ cols.*1.*1)
                                then "level_0" else "index") name, "")
                      ∈ cols.*1)) as [Hin|Hout].
    + unfold process_data, mbind, mret, Py_bind, Py_ret, lift, get_index, set_index.
      destruct tz as [zone|]; cbn [index columns index_tzinfo tz_localize_UTC
        tz_convert nrows index_len];
        rewrite ?bool_decide_true by reflexivity;
        cbn [index columns index_tzinfo tz_localize_UTC tz_convert nrows
          index_len];
        rewrite ?bool_decide_true by reflexivity;
        unfold reset_index; cbn [index columns index_name];
        destruct name; cbn [default] in Hin;
        rewrite (bool_decide_true _ Hin); discriminate.
    + rewrite (process_data_DatetimeIndex _ _ _ _ Hout).
      intros [= <-]. by eexists.
  - rewrite (process_data_RangeIndex _ n); [discriminate | reflexivity].
Qed.

Lemma bar_columns_fresh name ticker series :
  ticker <> "" -> (name, "") ∉ (bar_columns ticker series).*1.
Proof.
  intros Ht Hin. cbn in Hin.
  repeat (apply elem_of_cons in Hin as [[= _ Heq]|Hin]; [by destruct Ht|]).
  by apply elem_of_nil in Hin.
Qed.

(** C7: the timestamps of a provider table end up in the reference zone
    US/Eastern by the two-case rule (a zone-naive index is first taken as
    UTC and then converted, a zone-aware one is converted directly), at
    the same instants and in the same row order, and the bar columns keep
    their rows as they were. *)
Theorem process_data_timezone (name : string) (tz : option string)
    (ticker : string) (series : list Bar) :
  ticker <> "" -> ticker <> "Date" ->
  let idx := DatetimeIndex (Some name) tz (map timestamp series) in
  match tz with
  | None => tz_localize_UTC idx ≫= tz_convert "US/Eastern"
  | Some _ => tz_convert "US/Eastern" idx
  end = Ok (DatetimeIndex (Some name) (Some "US/Eastern") (map timestamp series))
  /\ process_data (provider_frame name tz ticker series)
     = (Ok tt,
        mkFrame (RangeIndex (length series))
          (((rename_label "Date" "Datetime" name, ""),
            Datetime64 (Some "US/Eastern") (map timestamp series))
             :: bar_columns ticker series)).
Proof.
  intros Ht Hd idx. split; [by destruct tz|].
  unfold provider_frame.
  rewrite process_data_DatetimeIndex by (by apply bar_columns_fresh).
  rewrite length_map. cbn [map default fst snd bar_columns].
  assert (rename_label "Date" "Datetime" ticker = ticker) as ->
    by (unfold rename_label; by rewrite (bool_decide_false _ Hd)).
  reflexivity.
Qed.

Lemma process_data_timezone_witness :
  "AAPL" <> "" /\ "AAPL" <> "Date"
  /\ process_data (provider_frame "Datetime" None "AAPL" rising)
     = (Ok tt, canonical_frame "AAPL" rising).
Proof.
  assert (H1 : "AAPL" <> "") by discriminate.
  assert (H2 : "AAPL" <> "Date") by discriminate.
  split; [exact H1|]. split; [exact H2|].
  exact (proj2 (process_data_timezone "Datetime" None "AAPL" rising H1 H2)).
Defined.

(** C4, as the code has it: the normalizer is not idempotent. A table it
    has produced has a positional index, which has no [tzinfo]: a second
    call fails with AttributeError on line 24 and leaves the table as it
    is. *)
Theorem process_data_twice (ticker : string) (series : list Bar) :
  process_data (canonical_frame ticker series)
    = (Raise AttributeError, canonical_frame ticker series)
  /\ forall data data',
       process_data data = (Ok tt, data') ->
       process_data data' = (Raise AttributeError, data').
Proof.
  split; [by apply (process_data_RangeIndex _ (length series))|].
  intros data data' H.
  destruct (process_data_leaves_RangeIndex _ _ H) as [n Hn].
  by apply (process_data_RangeIndex _ n).
Qed.

Lemma process_data_twice_witness :
  process_data (provider_frame "Date" (Some "UTC") "MSFT" rising)
    = (Ok tt, canonical_frame "MSFT" rising)
  /\ process_data (canonical_frame "MSFT" rising)
     = (Raise AttributeError, canonical_frame "MSFT" rising).
Proof.
  assert (H : process_data (provider_frame "Date" (Some "UTC") "MSFT" rising)
              = (Ok tt, canonical_frame "MSFT" rising)) by reflexivity.
  split; [exact H|].
  exact (proj2 (process_data_twice "MSFT" rising) _ _ H).
Defined.

(** C4 as stated fails: the canonical table of the Series [rising] is the
    normalizer's own output, and normalizing it again does not succeed. *)
Lemma process_data_not_idempotent :
  process_data (provider_frame "Datetime" None "AAPL" rising)
    = (Ok tt, canonical_frame "AAPL" rising)
  /\ process_data (canonical_frame "AAPL" rising)
     <> (Ok tt, canonical_frame "AAPL" rising).
Proof. split; [reflexivity | discriminate]. Qed.

(** ** The indicators *)

Lemma readonly_lift {A : Type} (r : result A) : readonly (lift r).
Proof. by intros data. Qed.

Lemma readonly_getitem key : readonly (getitem key).
Proof.
  by intros data.
Qed.

Lemma readonly_mret {A : Type} (a : A) : readonly (mret a : Py A).
Proof. by intros data. Qed.

Lemma readonly_bind {A B : Type} (m : Py A) (f : A -> Py B) :
  readonly m -> (forall a, readonly (f a)) -> readonly (m ≫= f).
Proof.
  intros Hm Hf data. unfold mbind, Py_bind.
  specialize (Hm data). destruct (m data) as [[a|e] data']; cbn in Hm; subst.
  - apply Hf.
  - reflexivity.
Qed.

Lemma readonly_calculate_metrics_with div :
  readonly (calculate_metrics_with div).
Proof.
  unfold calculate_metrics_with.
  repeat first
    [ apply readonly_bind; [|intros ?]
    | apply readonly_lift | apply readonly_getitem | apply readonly_mret ].
Qed.

Lemma getitem_snoc key i cols l c :
  l.1 <> key ->
  (getitem key (mkFrame i (cols ++ [(l, c)]))).1
  = (getitem key (mkFrame i cols)).1.
Proof.
  intros Hl. unfold getitem. cbn [columns fst].
  rewrite filter_app.
  match goal with
  | |- context [filter ?P cols ++ ?f] =>
      assert (f = []) as -> by (by rewrite filter_cons_False)
  end.
  by rewrite app_nil_r.
Qed.

Lemma getitem_eq key data r :
  (getitem key data).1 = r -> getitem key data = (r, data).
Proof.
  intros <-. rewrite <- (readonly_getitem key data) at 3.
  by destruct (getitem key data).
Qed.

Lemma bind_Ok {A B : Type} (m : Py A) (f : A -> Py B) data a data' :
  m data = (Ok a, data') -> (m ≫= f) data = f a data'.
Proof. intros H. unfold mbind, Py_bind. by rewrite H. Qed.

Lemma close_indicator data n close others
    (indicator : Column -> nat -> result Column) c :
  getitem "Close" data = (Ok (SubFrame n (close :: others)), data) ->
  indicator close 20%nat = Ok c ->
  (col ← getitem "Close";
   lift (close ← iloc_col0 col; indicator close 20%nat)) data
  = (Ok c, data).
Proof.
  intros Hclose Hc. rewrite (bind_Ok _ _ _ _ _ Hclose).
  unfold lift. cbn [iloc_col0 mbind result_bind]. by rewrite Hc.
Qed.

Lemma add_technical_indicators_columns data n close others xs :
  getitem "Close" data = (Ok (SubFrame n (close :: others)), data) ->
  Ta.to_float64 close = Ok xs ->
  "SMA_20" ∉ fields data -> "EMA_20" ∉ fields data ->
  add_technical_indicators data
  = (Ok tt,
     mkFrame (index data)
       (columns data ++
        [ (("SMA_20", ""), Float64 (Ta.rolling_mean 20 20 xs));
          (("EMA_20", ""), Float64 (Ta.ewm_mean 20 20 xs)) ])).
Proof.
  intros Hclose Hxs Hsma Hema.
  set (sma := Float64 (Ta.rolling_mean 20 20 xs)).
  set (ema := Float64 (Ta.ewm_mean 20 20 xs)).
  set (data1 := mkFrame (index data) (columns data ++ [(("SMA_20", ""), sma)])).
  assert (Hsma_ok : Ta.sma_indicator close 20 = Ok sma)
    by (unfold Ta.sma_indicator; by rewrite Hxs).
  assert (Hema_ok : Ta.ema_indicator close 20 = Ok ema)
    by (unfold Ta.ema_indicator; by rewrite Hxs).
  assert (Hset : setitem "SMA_20" sma data = (Ok tt, data1)).
  { unfold setitem. fold (fields data). by rewrite (bool_decide_false _ Hsma). }
  assert (Hclose1 : getitem "Close" data1
                    = (Ok (SubFrame n (close :: others)), data1)).
  { apply getitem_eq. unfold data1. rewrite getitem_snoc by done.
    destruct data as [i cols]. cbn [index columns]. by rewrite Hclose. }
  assert (Hema1 : "EMA_20" ∉ fields data1).
  { unfold fields, data1. cbn [columns]. rewrite !fmap_app.
    intros [H|H]%elem_of_app; [by apply Hema|].
    by apply list_elem_of_singleton in H. }
  unfold add_technical_indicators.
  rewrite (bind_Ok _ _ _ _ _ (close_indicator _ _ _ _ _ _ Hclose Hsma_ok)).
  rewrite (bind_Ok _ _ _ _ _ Hset).
  rewrite (bind_Ok _ _ _ _ _ (close_indicator _ _ _ _ _ _ Hclose1 Hema_ok)).
  unfold setitem. fold (fields data1). rewrite (bool_decide_false _ Hema1).
  unfold data1. cbn [index columns]. by rewrite <- app_assoc.
Qed.

Lemma add_technical_indicators_canonical ticker series :
  ticker <> "" ->
  add_technical_indicators (canonical_frame ticker series)
  = (Ok tt, indicator_frame ticker series).
Proof.
  intros Ht.
  rewrite (add_technical_indicators_columns _ (length series)
             (prices bar_close series) []
             (map (fun b => Fin (bar_close b)) series)).
  - reflexivity.
  - rewrite getitem_Close. by destruct ticker.
  - reflexivity.
  - cbn. intros H.
    repeat (apply elem_of_cons in H as [H|H]; [discriminate H|]).
    by apply elem_of_nil in H.
  - cbn. intros H.
    repeat (apply elem_of_cons in H as [H|H]; [discriminate H|]).
    by apply elem_of_nil in H.
Qed.

Lemma getitem_SMA_20 ticker series :
  getitem "SMA_20" (indicator_frame ticker series)
  = (Ok (Series (Float64 (Ta.rolling_mean 20 20
                            (map (fun b => Fin (bar_close b)) series)))),
     indicator_frame ticker series).
Proof. reflexivity. Qed.

Lemma getitem_EMA_20 ticker series :
  getitem "EMA_20" (indicator_frame ticker series)
  = (Ok (Series (Float64 (Ta.ewm_mean 20 20
                            (map (fun b => Fin (bar_close b)) series)))),
     indicator_frame ticker series).
Proof. reflexivity. Qed.

(** *** The rolling mean *)

Lemma rolling_mean_length window minp xs :
  length (Ta.rolling_mean window minp xs) = length xs.
Proof. unfold Ta.rolling_mean. by rewrite length_map, length_seq. Qed.

Lemma window_at_Fin {A : Type} (f : A -> Q) window i (l : list A) :
  fin_values (Ta.window_at window i (map (fun a => Fin (f a)) l))
  = map f (take (S i - (S i - window)) (drop (S i - window) l)).
Proof.
  unfold Ta.window_at. rewrite !map_fmap, <- fmap_drop, <- fmap_take.
  apply fin_values_Fin.
Qed.

Lemma rolling_mean_warmup {A : Type} (f : A -> Q) window i (l : list A) :
  (S i < window)%nat -> (i < length l)%nat ->
  Ta.rolling_mean window window (map (fun a => Fin (f a)) l) !! i = Some NaN.
Proof.
  intros Hi Hl. unfold Ta.rolling_mean.
  rewrite map_fmap, list_lookup_fmap, lookup_seq_lt
    by (by rewrite length_map).
  cbn [fmap option_fmap option_map Nat.add]. rewrite window_at_Fin.
  rewrite length_map, length_take, length_drop.
  match goal with
  | |- context [(?a <=? ?b)%nat] => destruct (Nat.leb_spec a b)
  end; [lia | reflexivity].
Qed.

Lemma rolling_mean_full {A : Type} (f : A -> Q) window i (l : list A) :
  (0 < window)%nat -> (window <= S i)%nat -> (i < length l)%nat ->
  Ta.rolling_mean window window (map (fun a => Fin (f a)) l) !! i
  = Some (Fin (Qsum (map f (take window (drop (S i - window) l)))
               / inject_Z (Z.of_nat window))).
Proof.
  intros Hw Hi Hl. unfold Ta.rolling_mean.
  rewrite map_fmap, list_lookup_fmap, lookup_seq_lt
    by (by rewrite length_map).
  cbn [fmap option_fmap option_map Nat.add]. rewrite window_at_Fin.
  replace (S i - (S i - window))%nat with window by lia.
  assert (Hlen : length (map f (take window (drop (S i - window) l))) = window)
    by (rewrite length_map, length_take, length_drop; lia).
  rewrite Hlen.
  destruct (Nat.leb_spec window window); [|lia].
  destruct (Nat.ltb_spec 0 window); [reflexivity | lia].
Qed.

(** The scenario of the specification: closes 10 .. 20 with a window of 5
    give 12 at row 4 and no value at row 3. *)
Example rolling_mean_scenario :
  let closes := map (fun z => Fin (inject_Z z)) (seqZ 10 11) in
  Ta.rolling_mean 5 5 closes !! 3%nat = Some NaN
  /\ exists m, Ta.rolling_mean 5 5 closes !! 4%nat = Some (Fin m)
               /\ (m == 12)%Q.
Proof. split; [reflexivity|]. eexists. split; reflexivity. Qed.

(** *** The exponentially weighted mean *)

Lemma ewm_loop_length alpha minp vals : forall weighted old_wt nobs,
  length (Ta.ewm_loop alpha minp weighted old_wt nobs vals) = length vals.
Proof.
  induction vals as [|cur rest IH]; intros weighted old_wt nobs;
    [reflexivity|].
  cbn [Ta.ewm_loop length].
  destruct weighted, cur; cbn [length]; f_equal; apply IH.
Qed.

Lemma ewm_mean_length span minp xs :
  length (Ta.ewm_mean span minp xs) = length xs.
Proof.
  destruct xs as [|x0 rest]; [reflexivity|]. cbn [Ta.ewm_mean length].
  by rewrite ewm_loop_length.
Qed.

Lemma ewm_step_value alpha w w' c :
  (w' == w)%Q ->
  ((1 * (1 - alpha) * w' + alpha * c) / (1 * (1 - alpha) + alpha)
   == c * alpha + w * (1 - alpha))%Q.
Proof.
  intros Hw. rewrite Hw.
  assert (Hden : (1 * (1 - alpha) + alpha == 1)%Q) by ring.
  rewrite Hden. unfold Qdiv. change (/ 1)%Q with 1%Q. ring.
Qed.

Lemma ewm_loop_Fin alpha minp qs : forall w w' nobs i e,
  (w' == w)%Q ->
  ema_from alpha w qs !! i = Some e ->
  exists e',
    Ta.ewm_loop alpha minp (Fin w') 1 nobs (map Fin qs) !! i
    = Some (if (minp <=? S (nobs + i))%nat then Fin e' else NaN)
    /\ (e' == e)%Q.
Proof.
  induction qs as [|c rest IH]; intros w w' nobs i e Hw Hi; [done|].
  cbn [map Ta.ewm_loop].
  set (v := if Qeq_bool w' c then Fin w'
            else Fin ((1 * (1 - alpha) * w' + alpha * c)
                      / (1 * (1 - alpha) + alpha))%Q).
  assert (Hv : exists v', v = Fin v' /\ (v' == c * alpha + w * (1 - alpha))%Q).
  { unfold v. destruct (Qeq_bool w' c) eqn:E.
    - exists w'. split; [reflexivity|].
      apply Qeq_bool_iff in E. rewrite <- Hw, <- E. ring.
    - eexists. split; [reflexivity|]. by apply ewm_step_value. }
  destruct Hv as (v' & Hv & Hv'). clearbody v. subst v.
  destruct i as [|j]; cbn [lookup list_lookup ema_from] in *.
  - injection Hi as <-. exists v'. rewrite Nat.add_0_r. by split.
  - destruct (IH _ v' (S nobs) j e Hv' Hi) as (e' & He' & Hee).
    exists e'. split; [|exact Hee].
    replace (S (nobs + S j)) with (S (S nobs + j)) by lia. exact He'.
Qed.

Lemma ewm_mean_Fin span minp qs i e :
  ema_first_seeded (2 / (inject_Z (Z.of_nat span) + 1)) qs !! i = Some e ->
  exists e',
    Ta.ewm_mean span minp (map Fin qs) !! i
    = Some (if (minp <=? S i)%nat then Fin e' else NaN)
    /\ (e' == e)%Q.
Proof.
  destruct qs as [|c0 rest]; [done|]. cbn [map Ta.ewm_mean ema_first_seeded].
  destruct i as [|j]; cbn [lookup list_lookup].
  - intros [= <-]. exists c0. by split.
  - intros Hj.
    destruct (ewm_loop_Fin _ minp rest c0 c0 1%nat j e (Qeq_refl _) Hj)
      as (e' & He' & Hee).
    exists e'. by split.
Qed.

Lemma ema_from_length alpha w qs : length (ema_from alpha w qs) = length qs.
Proof.
  revert w. induction qs as [|c rest IH]; intros w; [reflexivity|].
  cbn. by rewrite IH.
Qed.

Lemma ema_first_seeded_length alpha qs :
  length (ema_first_seeded alpha qs) = length qs.
Proof. destruct qs; [reflexivity|]. cbn. by rewrite ema_from_length. Qed.

Lemma ema_from_step alpha qs : forall w j p c,
  (w :: ema_from alpha w qs) !! j = Some p ->
  qs !! j = Some c ->
  ema_from alpha w qs !! j = Some (c * alpha + p * (1 - alpha))%Q.
Proof.
  induction qs as [|c0 rest IH]; intros w j p c Hp Hc; [done|].
  destruct j as [|j]; cbn [lookup list_lookup ema_from] in *.
  - by injection Hp as <-; injection Hc as <-.
  - by apply IH.
Qed.

Lemma ema_first_seeded_step alpha qs i p c :
  ema_first_seeded alpha qs !! i = Some p ->
  qs !! S i = Some c ->
  ema_first_seeded alpha qs !! S i = Some (c * alpha + p * (1 - alpha))%Q.
Proof.
  destruct qs as [|c0 rest]; [done|]. cbn [ema_first_seeded].
  intros Hp Hc. by apply ema_from_step.
Qed.

(** C6: the SMA_20 column [add_technical_indicators] writes has one entry
    per row; its first 19 entries are NaN, pandas' marker for a missing
    value; and its entry at every row i >= 19 is the arithmetic mean of
    the closes of rows i-19 .. i, so that the entry at row 19 is the mean
    of the first 20 closes. *)
Theorem sma_column (ticker : string) (series : list Bar) :
  ticker <> "" ->
  exists data' sma,
    add_technical_indicators (canonical_frame ticker series) = (Ok tt, data')
    /\ getitem "SMA_20" data' = (Ok (Series (Float64 sma)), data')
    /\ length sma = length series
    /\ (forall i, (i < 19)%nat -> (i < length series)%nat ->
          sma !! i = Some NaN)
    /\ (forall i, (19 <= i)%nat -> (i < length series)%nat ->
          sma !! i
          = Some (Fin (Qsum (map bar_close (take 20 (drop (i - 19) series)))
                       / 20)))
    /\ ((19 < length series)%nat ->
        sma !! 19%nat
        = Some (Fin (Qsum (map bar_close (take 20 series)) / 20))).
Proof.
  intros Ht. do 2 eexists.
  split; [by apply add_technical_indicators_canonical|].
  split; [apply getitem_SMA_20|].
  split; [by rewrite rolling_mean_length, length_map|].
  split; [|split].
  - intros i Hi Hl. apply rolling_mean_warmup; [lia | done].
  - intros i Hi Hl. rewrite rolling_mean_full by (lia || done).
    by replace (S i - 20)%nat with (i - 19)%nat by lia.
  - intros Hl. by rewrite rolling_mean_full by (lia || done).
Qed.

Lemma sma_column_witness :
  "AAPL" <> ""
  /\ exists data' sma,
    add_technical_indicators (canonical_frame "AAPL" ramp) = (Ok tt, data')
    /\ getitem "SMA_20" data' = (Ok (Series (Float64 sma)), data')
    /\ length sma = length ramp
    /\ (forall i, (i < 19)%nat -> (i < length ramp)%nat ->
          sma !! i = Some NaN)
    /\ (forall i, (19 <= i)%nat -> (i < length ramp)%nat ->
          sma !! i
          = Some (Fin (Qsum (map bar_close (take 20 (drop (i - 19) ramp)))
                       / 20)))
    /\ ((19 < length ramp)%nat ->
        sma !! 19%nat
        = Some (Fin (Qsum (map bar_close (take 20 ramp)) / 20))).
Proof.
  assert (H : "AAPL" <> "") by discriminate.
  split; [exact H|]. exact (sma_column "AAPL" ramp H).
Defined.

(** C3, as the code has it: the EMA_20 column has one entry per row and
    its first 19 entries are NaN; the average behind it starts at row 0
    from the first close (not at row 19 from the mean of the first 20
    closes) and follows EMA[i] = close[i] * a + EMA[i-1] * (1 - a) with
    a = 2/21 from row 1 on, so every entry from row 19 on is the value of
    that recurrence, and consecutive entries from row 19 on are related by
    it. *)
Theorem ema_column (ticker : string) (series : list Bar) :
  ticker <> "" ->
  exists data' ema,
    add_technical_indicators (canonical_frame ticker series) = (Ok tt, data')
    /\ getitem "EMA_20" data' = (Ok (Series (Float64 ema)), data')
    /\ length ema = length series
    /\ (forall i, (i < 19)%nat -> (i < length series)%nat ->
          ema !! i = Some NaN)
    /\ (forall i e, (19 <= i)%nat ->
          ema_first_seeded (2 / 21) (map bar_close series) !! i = Some e ->
          exists e', ema !! i = Some (Fin e') /\ (e' == e)%Q)
    /\ (forall i prev cur c, (19 <= i)%nat ->
          ema !! i = Some (Fin prev) -> ema !! S i = Some (Fin cur) ->
          map bar_close series !! S i = Some c ->
          (cur == c * (2 / 21) + prev * (1 - 2 / 21))%Q).
Proof.
  intros Ht.
  set (closes := map bar_close series).
  set (ema := Ta.ewm_mean 20 20 (map (fun b => Fin (bar_close b)) series)).
  assert (Hema_eq : ema = Ta.ewm_mean 20 20 (map Fin closes)).
  { unfold ema, closes. by rewrite map_map. }
  assert (Hlen : length ema = length series)
    by (unfold ema; by rewrite ewm_mean_length, length_map).
  assert (Hdef : forall i e, (19 <= i)%nat ->
            ema_first_seeded (2 / 21) closes !! i = Some e ->
            exists e', ema !! i = Some (Fin e') /\ (e' == e)%Q).
  { intros i e Hi He.
    destruct (ewm_mean_Fin 20 20 closes i e He) as (e' & He' & Hee).
    exists e'. split; [|exact Hee]. rewrite Hema_eq, He'.
    destruct (Nat.leb_spec 20 (S i)); [reflexivity | lia]. }
  assert (Hwarm : forall i, (i < 19)%nat -> (i < length series)%nat ->
            ema !! i = Some NaN).
  { intros i Hi Hl.
    destruct (ema_first_seeded (2 / 21) closes !! i) as [e|] eqn:He.
    - destruct (ewm_mean_Fin 20 20 closes i e He) as (e' & He' & _).
      rewrite Hema_eq, He'.
      destruct (Nat.leb_spec 20 (S i)); [lia | reflexivity].
    - apply lookup_ge_None in He.
      rewrite ema_first_seeded_length in He. unfold closes in He.
      rewrite length_map in He. lia. }
  exists (indicator_frame ticker series), ema.
  split; [by apply add_technical_indicators_canonical|].
  split; [apply getitem_EMA_20|].
  split; [exact Hlen|]. split; [exact Hwarm|]. split; [exact Hdef|].
  intros i prev cur c Hi Hprev Hcur Hc.
  assert (Hi_lt : (i < length (ema_first_seeded (2 / 21) closes))%nat).
  { rewrite ema_first_seeded_length. apply lookup_lt_Some in Hc. lia. }
  destruct (lookup_lt_is_Some_2 _ _ Hi_lt) as [p Hp].
  pose proof (ema_first_seeded_step _ _ _ _ _ Hp Hc) as Hstep.
  destruct (Hdef i p Hi Hp) as (p' & Hp' & Hpp).
  destruct (Hdef (S i) _ (Nat.le_trans _ _ _ Hi (Nat.le_succ_diag_r i)) Hstep)
    as (c' & Hc' & Hcc).
  rewrite Hprev in Hp'. injection Hp' as <-.
  rewrite Hcur in Hc'. injection Hc' as <-.
  by rewrite Hcc, Hpp.
Qed.

Lemma ema_column_witness :
  "AAPL" <> ""
  /\ exists data' ema,
    add_technical_indicators (canonical_frame "AAPL" ramp) = (Ok tt, data')
    /\ getitem "EMA_20" data' = (Ok (Series (Float64 ema)), data')
    /\ length ema = length ramp
    /\ (forall i, (i < 19)%nat -> (i < length ramp)%nat ->
          ema !! i = Some NaN)
    /\ (forall i e, (19 <= i)%nat ->
          ema_first_seeded (2 / 21) (map bar_close ramp) !! i = Some e ->
          exists e', ema !! i = Some (Fin e') /\ (e' == e)%Q)
    /\ (forall i prev cur c, (19 <= i)%nat ->
          ema !! i = Some (Fin prev) -> ema !! S i = Some (Fin cur) ->
          map bar_close ramp !! S i = Some c ->
          (cur == c * (2 / 21) + prev * (1 - 2 / 21))%Q).
Proof.
  assert (H : "AAPL" <> "") by discriminate.
  split; [exact H|]. exact (ema_column "AAPL" ramp H).
Defined.

(** C3 as stated fails: for the twenty closes 1, 2, ..., 20 the SMA_20
    entry at row 19 is their mean, 21/2, and the EMA_20 entry at row 19 is
    another number. *)
Lemma ema_seed_is_not_sma :
  exists data' sma ema m e,
    add_technical_indicators (canonical_frame "AAPL" ramp) = (Ok tt, data')
    /\ getitem "SMA_20" data' = (Ok (Series (Float64 sma)), data')
    /\ getitem "EMA_20" data' = (Ok (Series (Float64 ema)), data')
    /\ sma !! 19%nat = Some (Fin m)
    /\ ema !! 19%nat = Some (Fin e)
    /\ (m == 21 / 2)%Q
    /\ ~ (e == m)%Q.
Proof.
  exists (indicator_frame "AAPL" ramp). do 4 eexists.
  split; [by apply add_technical_indicators_canonical|].
  split; [apply getitem_SMA_20|]. split; [apply getitem_EMA_20|].
  split; [vm_compute; reflexivity|]. split; [vm_compute; reflexivity|].
  split; [reflexivity|].
  intros E. vm_compute in E. discriminate E.
Qed.

(** * Further properties of the script *)

(** ** What the metrics read *)

Lemma reads_getitem key :
  reads (getitem key) (fun data => (getitem key data).1).
Proof. by intros data. Qed.

Lemma reads_lift {A : Type} (r : result A) : reads (lift r) (fun _ => r).
Proof. by intros data. Qed.

Lemma reads_mret {A : Type} (a : A) : reads (mret a : Py A) (fun _ => Ok a).
Proof. by intros data. Qed.

Lemma reads_bind {A B : Type} (m : Py A) (f : A -> Py B) r g :
  reads m r -> (forall a, reads (f a) (g a)) ->
  reads (m ≫= f) (fun data => r data ≫= fun a => g a data).
Proof.
  intros Hm Hf data. unfold mbind at 1, Py_bind. rewrite Hm.
  destruct (r data) as [a|e]; [apply Hf | reflexivity].
Qed.

Lemma calculate_metrics_with_blocks div :
  reads (calculate_metrics_with div)
        (fun data => metrics_of div (fun key => (getitem key data).1)).
Proof.
  unfold calculate_metrics_with, metrics_of.
  repeat first
    [ apply reads_getitem | apply reads_lift | apply reads_mret
    | apply reads_bind; [|intros ?] ].
Qed.

Lemma metrics_of_ext div (b1 b2 : string -> result Selection) :
  b1 "Close" = b2 "Close" -> b1 "High" = b2 "High" ->
  b1 "Low" = b2 "Low" -> b1 "Volume" = b2 "Volume" ->
  metrics_of div b1 = metrics_of div b2.
Proof. intros Hc Hh Hl Hv. unfold metrics_of. by rewrite Hc, Hh, Hl, Hv. Qed.

Lemma calculate_metrics_blocks_eq data1 data2 :
  (forall key, key ∈ ["Close"; "High"; "Low"; "Volume"] ->
     (getitem key data1).1 = (getitem key data2).1) ->
  (calculate_metrics data1).1 = (calculate_metrics data2).1.
Proof.
  intros H. unfold calculate_metrics.
  rewrite !calculate_metrics_with_blocks. cbn [fst].
  apply metrics_of_ext; apply H; repeat constructor.
Qed.

(** ** Assignment and selection *)

Lemma filter_map_fixed {A : Type} (P : A -> Prop) `{!forall x, Decision (P x)}
    (f : A -> A) (l : list A) :
  (forall x, P x -> f x = x) -> (forall x, ~ P x -> ~ P (f x)) ->
  filter P (map f l) = filter P l.
Proof.
  intros Hfix Hout. induction l as [|x l IH]; [reflexivity|].
  cbn [map]. destruct (decide (P x)) as [HP|HP].
  - rewrite (Hfix x HP), !filter_cons_True by done. by rewrite IH.
  - rewrite !filter_cons_False by auto. exact IH.
Qed.

Lemma nrows_setitem key c data : nrows (setitem key c data).2 = nrows data.
Proof. unfold setitem. by case_bool_decide. Qed.

Lemma getitem_setitem_ne key key' c data :
  key <> key' ->
  (getitem key' (setitem key c data).2).1 = (getitem key' data).1.
Proof.
  intros Hne. unfold setitem. case_bool_decide.
  - unfold getitem. cbn [fst snd columns nrows index]. f_equal.
    apply (filter_map_fixed (fun lc : Label * Column => lc.1.1 = key')).
    + intros lc Hlc. rewrite bool_decide_false; [done | congruence].
    + intros lc Hlc. by case_bool_decide.
  - cbn [snd]. destruct data as [i cols]. by apply getitem_snoc.
Qed.

Lemma setitem_Ok key c data : (setitem key c data).1 = Ok tt.
Proof. unfold setitem. by case_bool_decide. Qed.

Lemma close_column_reads {A : Type} (f : Selection -> result A) :
  reads (col ← getitem "Close"; lift (f col))
        (fun data => (getitem "Close" data).1 ≫= f).
Proof.
  apply (reads_bind _ _ _ (fun col _ => f col)); [apply reads_getitem|].
  intros col. apply reads_lift.
Qed.

(** The table [add_technical_indicators] leaves has, under every field
    other than the two it assigns, what the table it was given has. *)
Lemma add_technical_indicators_getitem key data :
  key <> "SMA_20" -> key <> "EMA_20" ->
  (getitem key (add_technical_indicators data).2).1 = (getitem key data).1.
Proof.
  intros Hsma Hema. unfold add_technical_indicators.
  unfold mbind at 1, Py_bind at 1. rewrite close_column_reads.
  destruct (_ ≫= _) as [sma|e]; [|reflexivity].
  unfold mbind at 1, Py_bind at 1.
  pose proof (setitem_Ok "SMA_20" sma data) as Hok.
  pose proof (getitem_setitem_ne "SMA_20" key sma data (not_eq_sym Hsma)) as H1.
  destruct (setitem "SMA_20" sma data) as [r data1]. cbn [fst snd] in *.
  subst r.
  unfold mbind at 1, Py_bind at 1. rewrite close_column_reads.
  destruct (_ ≫= _) as [ema|e]; [|exact H1].
  rewrite <- H1. by apply getitem_setitem_ne.
Qed.

(** X1: the indicator columns never change the metrics. Whatever table
    [add_technical_indicators] is given and whether it succeeds or raises,
    [calculate_metrics] answers on the table it leaves what it answers on
    the table it was given: lines 74 and 76 can be swapped. *)
Theorem indicators_keep_metrics (data : DataFrame) :
  (calculate_metrics (add_technical_indicators data).2).1
  = (calculate_metrics data).1.
Proof.
  apply calculate_metrics_blocks_eq. intros key Hkey.
  repeat (apply elem_of_cons in Hkey as [->|Hkey];
          [by apply add_technical_indicators_getitem|]).
  by apply elem_of_nil in Hkey.
Qed.

(** ** The frame of the two functions *)

Lemma to_float64_length c xs : Ta.to_float64 c = Ok xs -> length xs = col_len c.
Proof.
  destruct c; cbn [Ta.to_float64 col_len]; intros [= <-];
    [reflexivity | apply length_map].
Qed.

Lemma setitem_keeps key c data :
  key = "SMA_20" \/ key = "EMA_20" ->
  index (setitem key c data).2 = index data
  /\ filter (fun lc : Label * Column =>
               lc.1.1 <> "SMA_20" /\ lc.1.1 <> "EMA_20")
            (columns (setitem key c data).2)
     = filter (fun lc : Label * Column =>
                 lc.1.1 <> "SMA_20" /\ lc.1.1 <> "EMA_20")
              (columns data).
Proof.
  intros Hkey. unfold setitem. case_bool_decide; cbn [snd index columns].
  - split; [reflexivity|]. apply filter_map_fixed.
    + intros lc [Hs He]. rewrite bool_decide_false; [done|].
      by destruct Hkey as [->| ->].
    + intros lc Hlc. by case_bool_decide.
  - split; [reflexivity|]. rewrite filter_app, filter_cons_False.
    + by rewrite filter_nil, app_nil_r.
    + cbn. intros [Hs He]. by destruct Hkey as [->| ->].
Qed.

Lemma add_technical_indicators_state (inv : DataFrame -> Prop) data :
  inv data ->
  (forall key c d,
     key = "SMA_20" \/ key = "EMA_20" -> inv d -> inv (setitem key c d).2) ->
  inv (add_technical_indicators data).2.
Proof.
  intros Hdata Hset. unfold add_technical_indicators.
  unfold mbind at 1, Py_bind at 1. rewrite close_column_reads.
  destruct ((getitem "Close" data).1 ≫= _) as [sma|e]; [|done].
  unfold mbind at 1, Py_bind at 1.
  pose proof (setitem_Ok "SMA_20" sma data) as Hok.
  pose proof (Hset "SMA_20" sma data (or_introl eq_refl) Hdata) as H1.
  destruct (setitem "SMA_20" sma data) as [r data1]. cbn [fst snd] in *.
  subst r.
  unfold mbind at 1, Py_bind at 1. rewrite close_column_reads.
  destruct ((getitem "Close" data1).1 ≫= _) as [ema|e]; [|done].
  by apply Hset; [right|].
Qed.

Lemma add_technical_indicators_keeps data :
  index (add_technical_indicators data).2 = index data
  /\ filter (fun lc : Label * Column =>
               lc.1.1 <> "SMA_20" /\ lc.1.1 <> "EMA_20")
            (columns (add_technical_indicators data).2)
     = filter (fun lc : Label * Column =>
                 lc.1.1 <> "SMA_20" /\ lc.1.1 <> "EMA_20")
              (columns data).
Proof.
  apply (add_technical_indicators_state
           (fun d => index d = index data
                     /\ filter (fun lc : Label * Column =>
                                  lc.1.1 <> "SMA_20" /\ lc.1.1 <> "EMA_20")
                               (columns d)
                        = filter (fun lc : Label * Column =>
                                    lc.1.1 <> "SMA_20" /\ lc.1.1 <> "EMA_20")
                                 (columns data))); [done|].
  intros key c d Hkey [Hi Hc].
  destruct (setitem_keeps key c d Hkey) as [Hi' Hc'].
  by rewrite Hi', Hc'.
Qed.

(** C10, as the code has it. On every table, whatever it answers,
    [add_technical_indicators] leaves the row index and every column
    whose field is not SMA_20 or EMA_20 (label, values and order) as they
    were. On a table whose Close block is a frame (two-level column
    labels) with a numeric first column, and that has no indicator column
    yet, it succeeds and appends exactly two columns after the ones that
    were there: SMA_20, the 20-row rolling mean of that Close column, and
    EMA_20, its span-20 exponentially weighted mean, each with one entry
    per row of the Close column. [calculate_metrics] leaves the table it
    is given unchanged, whatever it answers. *)
Theorem indicators_and_metrics_frame (data : DataFrame) :
  (index (add_technical_indicators data).2 = index data
   /\ filter (fun lc : Label * Column =>
                lc.1.1 <> "SMA_20" /\ lc.1.1 <> "EMA_20")
             (columns (add_technical_indicators data).2)
      = filter (fun lc : Label * Column =>
                  lc.1.1 <> "SMA_20" /\ lc.1.1 <> "EMA_20")
               (columns data))
  /\ (forall n close others xs,
        getitem "Close" data = (Ok (SubFrame n (close :: others)), data) ->
        Ta.to_float64 close = Ok xs ->
        "SMA_20" ∉ fields data -> "EMA_20" ∉ fields data ->
        add_technical_indicators data
        = (Ok tt,
           mkFrame (index data)
             (columns data ++
              [ (("SMA_20", ""), Float64 (Ta.rolling_mean 20 20 xs));
                (("EMA_20", ""), Float64 (Ta.ewm_mean 20 20 xs)) ]))
        /\ length (Ta.rolling_mean 20 20 xs) = col_len close
        /\ length (Ta.ewm_mean 20 20 xs) = col_len close)
  /\ (forall r data', calculate_metrics data = (r, data') -> data' = data).
Proof.
  split; [apply add_technical_indicators_keeps|]. split.
  - intros n close others xs Hclose Hxs Hsma Hema.
    split; [by apply (add_technical_indicators_columns data n close others xs)|].
    rewrite rolling_mean_length, ewm_mean_length.
    split; by apply to_float64_length.
  - intros r data' H.
    pose proof (readonly_calculate_metrics_with Python.truediv data) as Hro.
    fold calculate_metrics in Hro. rewrite H in Hro. exact Hro.
Qed.

Lemma indicators_and_metrics_frame_witness :
  add_technical_indicators (canonical_frame "AAPL" ramp)
  = (Ok tt,
     mkFrame (RangeIndex 20)
       (columns (canonical_frame "AAPL" ramp) ++
        [ (("SMA_20", ""),
           Float64 (Ta.rolling_mean 20 20
                      (map (fun b => Fin (bar_close b)) ramp)));
          (("EMA_20", ""),
           Float64 (Ta.ewm_mean 20 20
                      (map (fun b => Fin (bar_close b)) ramp))) ]))
  /\ length (Ta.rolling_mean 20 20 (map (fun b => Fin (bar_close b)) ramp))
     = col_len (prices bar_close ramp)
  /\ length (Ta.ewm_mean 20 20 (map (fun b => Fin (bar_close b)) ramp))
     = col_len (prices bar_close ramp).
Proof.
  refine (proj1 (proj2 (indicators_and_metrics_frame
                          (canonical_frame "AAPL" ramp)))
            20%nat (prices bar_close ramp) []
            (map (fun b => Fin (bar_close b)) ramp) _ _ _ _).
  - reflexivity.
  - reflexivity.
  - cbn. intros H.
    repeat (apply elem_of_cons in H as [H|H]; [discriminate H|]).
    by apply elem_of_nil in H.
  - cbn. intros H.
    repeat (apply elem_of_cons in H as [H|H]; [discriminate H|]).
    by apply elem_of_nil in H.
Defined.

(** C10 as stated fails: the flat table of the Series [rising] has
    exactly the six columns Datetime, Close, High, Low, Open and Volume,
    and [add_technical_indicators] adds no column to it: it raises
    IndexingError and leaves the table as it was. *)
Lemma flat_table_gets_no_indicators :
  fields (canonical_frame "" rising)
  = ["Datetime"; "Close"; "High"; "Low"; "Open"; "Volume"]
  /\ (columns (canonical_frame "" rising)).*1.*2 = ["" ; ""; ""; ""; ""; ""]
  /\ add_technical_indicators (canonical_frame "" rising)
     = (Raise IndexingError, canonical_frame "" rising).
Proof. repeat split. Qed.

(** ** Tables the two readers refuse *)

Lemma getitem_missing key data :
  key ∉ fields data -> getitem key data = (Raise KeyError, data).
Proof.
  intros Hkey. unfold getitem.
  assert (filter (fun lc : Label * Column => lc.1.1 = key) (columns data) = [])
    as ->; [|reflexivity].
  unfold fields in Hkey. induction (columns data) as [|lc cols IH];
    [reflexivity|].
  rewrite filter_cons_False.
  - apply IH. intros H. apply Hkey. by right.
  - intros H. apply Hkey. rewrite <- H. by left.
Qed.

Lemma bind_Raise {A B : Type} (m : Py A) (f : A -> Py B) data e data' :
  m data = (Raise e, data') -> (m ≫= f) data = (Raise e, data').
Proof. intros H. unfold mbind, Py_bind. by rewrite H. Qed.

(** X2: a table with no column under the field Close is refused by both
    readers with KeyError, and neither has written anything to it. *)
Theorem missing_close_KeyError (data : DataFrame) :
  "Close" ∉ fields data ->
  calculate_metrics data = (Raise KeyError, data)
  /\ add_technical_indicators data = (Raise KeyError, data).
Proof.
  intros Hclose. pose proof (getitem_missing _ _ Hclose) as Hget.
  split; do 2 apply bind_Raise; exact Hget.
Qed.

Lemma missing_close_KeyError_witness :
  ("Close" ∉ fields (mkFrame (RangeIndex 1) [(("Datetime", ""), Int64 [0])]))
  /\ (calculate_metrics
        (mkFrame (RangeIndex 1) [(("Datetime", ""), Int64 [0])])
      = (Raise KeyError,
         mkFrame (RangeIndex 1) [(("Datetime", ""), Int64 [0])])).
Proof.
  assert (H : "Close" ∉ fields
                (mkFrame (RangeIndex 1) [(("Datetime", ""), Int64 [0])])).
  { cbn. intros H. apply elem_of_cons in H as [H|H]; [discriminate H|].
    by apply elem_of_nil in H. }
  split; [exact H|]. exact (proj1 (missing_close_KeyError _ H)).
Defined.

(** X3: a table whose Close column is a single Series (flat, one-level
    column labels) is refused by [add_technical_indicators]: the
    [.iloc[:, 0]] of line 45 raises IndexingError, and nothing has been
    written to the table. *)
Theorem flat_close_IndexingError (data : DataFrame) (c : Column) :
  getitem "Close" data = (Ok (Series c), data) ->
  add_technical_indicators data = (Raise IndexingError, data).
Proof.
  intros Hclose. apply bind_Raise. by rewrite (bind_Ok _ _ _ _ _ Hclose).
Qed.

Lemma flat_close_IndexingError_witness :
  add_technical_indicators (canonical_frame "" rising)
  = (Raise IndexingError, canonical_frame "" rising).
Proof.
  apply (flat_close_IndexingError _ (prices bar_close rising)). reflexivity.
Defined.

Lemma cell_is_Some c k : (k < col_len c)%nat -> is_Some (cell c k).
Proof.
  intros Hk. destruct c; cbn [cell col_len] in *;
    apply fmap_is_Some; by apply lookup_lt_is_Some_2.
Qed.

Lemma iloc_last_row n cs :
  (0 < n)%nat -> Forall (fun c => col_len c = n) cs ->
  exists vs, iloc (-1) (SubFrame n cs) = Ok (Row vs) /\ length vs = length cs.
Proof.
  intros Hn Hcs. destruct n as [|m]; [lia|].
  cbn [iloc]. rewrite position_last. cbn [mbind result_bind].
  assert (His : is_Some (mapM (fun c => cell c m) cs)).
  { apply mapM_is_Some. eapply Forall_impl; [exact Hcs|].
    intros c Hc. apply cell_is_Some. cbn beta in Hc. lia. }
  destruct His as [vs Hvs]. rewrite Hvs. exists vs. split; [reflexivity|].
  apply mapM_Some in Hvs. symmetry. by eapply Forall2_length.
Qed.

(** X4: the metrics are for one ticker. When the table holds two or more
    columns under Close (one per ticker, each with a value in every row),
    the [.item()] of line 33 is given a row of several values and raises
    ValueError; the table is left as it was. *)
Theorem several_tickers_ValueError (data : DataFrame) (n : nat)
    (cs : list Column) :
  getitem "Close" data = (Ok (SubFrame n cs), data) ->
  (2 <= length cs)%nat -> (0 < n)%nat ->
  Forall (fun c => col_len c = n) cs ->
  calculate_metrics data = (Raise ValueError, data).
Proof.
  intros Hclose Hlen Hn Hcs.
  destruct (iloc_last_row n cs Hn Hcs) as (vs & Hrow & Hvs).
  apply bind_Raise. rewrite (bind_Ok _ _ _ _ _ Hclose).
  unfold lift. rewrite Hrow. cbn [mbind result_bind].
  destruct vs as [|v [|v' vs]]; cbn [length] in Hvs; [lia | lia | reflexivity].
Qed.

Lemma several_tickers_ValueError_witness :
  calculate_metrics
    (mkFrame (RangeIndex 1)
       [(("Close", "AAPL"), Float64 [Fin 1]);
        (("Close", "MSFT"), Float64 [Fin 2])])
  = (Raise ValueError,
     mkFrame (RangeIndex 1)
       [(("Close", "AAPL"), Float64 [Fin 1]);
        (("Close", "MSFT"), Float64 [Fin 2])]).
Proof.
  apply (several_tickers_ValueError _ 1%nat [Float64 [Fin 1]; Float64 [Fin 2]]).
  - reflexivity.
  - cbn. lia.
  - lia.
  - repeat constructor.
Defined.

(** ** Running the indicators again *)

Lemma fields_overwrite key c (cols : list (Label * Column)) :
  (map (fun lc : Label * Column =>
          if bool_decide (lc.1.1 = key) then (lc.1, c) else lc) cols).*1.*1
  = cols.*1.*1.
Proof.
  induction cols as [|lc cols IH]; [reflexivity|].
  cbn [map fmap list_fmap] in *. rewrite IH. f_equal. by case_bool_decide.
Qed.

Lemma setitem_filled key c data : filled key c (setitem key c data).2.
Proof.
  unfold setitem, filled, fields. case_bool_decide as Hin; cbn [snd columns].
  - split.
    + by rewrite fields_overwrite.
    + apply Forall_forall. intros lc' Hlc.
      rewrite map_fmap in Hlc. apply list_elem_of_fmap in Hlc as (lc & -> & _).
      by case_bool_decide.
  - split.
    + rewrite !fmap_app. apply elem_of_app. right. by left.
    + apply Forall_app. split; [|by repeat constructor].
      apply Forall_forall. intros lc Hlc Hkey. destruct Hin.
      rewrite <- Hkey. by do 2 apply list_elem_of_fmap_2.
Qed.

Lemma setitem_filled_ne key key' c c' data :
  key <> key' -> filled key c data -> filled key c (setitem key' c' data).2.
Proof.
  intros Hne [Hin Hall]. unfold setitem, filled, fields in *.
  case_bool_decide as Hin'; cbn [snd columns].
  - split.
    + by rewrite fields_overwrite.
    + apply Forall_forall. intros lc' Hlc.
      rewrite map_fmap in Hlc. apply list_elem_of_fmap in Hlc as (lc & -> & Hlc).
      case_bool_decide as Hk; [cbn; congruence|].
      by apply (proj1 (Forall_forall _ _) Hall).
  - split.
    + rewrite !fmap_app. apply elem_of_app. by left.
    + apply Forall_app. split; [exact Hall|].
      constructor; [|constructor]. cbn. congruence.
Qed.

Lemma setitem_noop key c data :
  filled key c data -> setitem key c data = (Ok tt, data).
Proof.
  intros [Hin Hall]. unfold setitem. fold (fields data).
  rewrite (bool_decide_true _ Hin). f_equal.
  destruct data as [i cols]. cbn [index columns] in *. f_equal.
  clear Hin. induction Hall as [|lc cols Hlc Hall IH]; [reflexivity|].
  cbn [map]. rewrite IH. f_equal.
  case_bool_decide as Hk; [|reflexivity].
  destruct lc as [l c0]. cbn in *. by rewrite (Hlc Hk).
Qed.

(** X5: [add_technical_indicators] can be run again on its own result.
    Whatever table the first run succeeded on, a second run on the table
    it left succeeds as well and leaves that table exactly as it is: the
    two columns are overwritten by the values they hold. *)
Theorem add_technical_indicators_again (data data' : DataFrame) :
  add_technical_indicators data = (Ok tt, data') ->
  add_technical_indicators data' = (Ok tt, data').
Proof.
  unfold add_technical_indicators.
  unfold mbind at 1, Py_bind at 1. rewrite close_column_reads.
  destruct ((getitem "Close" data).1 ≫= _) as [sma|e] eqn:Hsma;
    [|discriminate].
  unfold mbind at 1, Py_bind at 1.
  pose proof (setitem_Ok "SMA_20" sma data) as Hok1.
  pose proof (setitem_filled "SMA_20" sma data) as Hf1.
  pose proof (getitem_setitem_ne "SMA_20" "Close" sma data) as Hc1.
  destruct (setitem "SMA_20" sma data) as [r1 data1]. cbn [fst snd] in *.
  subst r1.
  unfold mbind at 1, Py_bind at 1. rewrite close_column_reads.
  destruct ((getitem "Close" data1).1 ≫= _) as [ema|e] eqn:Hema;
    [|discriminate].
  pose proof (setitem_Ok "EMA_20" ema data1) as Hok2.
  pose proof (setitem_filled "EMA_20" ema data1) as Hf2.
  pose proof (setitem_filled_ne "SMA_20" "EMA_20" sma ema data1) as Hf12.
  pose proof (getitem_setitem_ne "EMA_20" "Close" ema data1) as Hc2.
  destruct (setitem "EMA_20" ema data1) as [r2 data2]. cbn [fst snd] in *.
  subst r2. intros [= ->].
  assert (Hclose1 : (getitem "Close" data').1 = (getitem "Close" data1).1)
    by (by apply Hc2).
  assert (Hclose : (getitem "Close" data').1 = (getitem "Close" data).1)
    by (rewrite Hclose1; by apply Hc1).
  unfold mbind at 1, Py_bind at 1. rewrite close_column_reads, Hclose, Hsma.
  unfold mbind at 1, Py_bind at 1.
  rewrite (setitem_noop "SMA_20" sma data') by (by apply Hf12).
  unfold mbind at 1, Py_bind at 1. rewrite close_column_reads, Hclose1, Hema.
  by apply setitem_noop.
Qed.

Lemma add_technical_indicators_again_witness :
  add_technical_indicators (indicator_frame "AAPL" rising)
  = (Ok tt, indicator_frame "AAPL" rising).
Proof.
  apply (add_technical_indicators_again (canonical_frame "AAPL" rising)).
  reflexivity.
Defined.

(** ** How the normalizer can end *)

(** X6: the three ways [process_data] ends, for any table. It succeeds
    and leaves a positional index over the same rows; or the index is not
    a datetime index, line 24 raises AttributeError and the table is
    untouched; or the name the index would take as a column is already a
    column, line 27 raises ValueError, and the table keeps its columns but
    its index has already been converted to US/Eastern. It never raises
    anything else: the test of line 24 keeps [tz_localize] away from a
    zone-aware index and [tz_convert] away from a zone-naive one. *)
Theorem process_data_outcomes (data : DataFrame) :
  match process_data data with
  | (Ok _, data') => index data' = RangeIndex (nrows data)
  | (Raise AttributeError, data') =>
      data' = data /\ exists n, index data = RangeIndex n
  | (Raise ValueError, data') =>
      exists name tz xs,
        index data = DatetimeIndex name tz xs
        /\ data' = mkFrame (DatetimeIndex name (Some "US/Eastern") xs)
                           (columns data)
  | (Raise _, _) => False
  end.
Proof.
  destruct data as [[name tz xs|n] cols].
  - destruct (decide ((default (if bool_decide ("index" ∈ cols.*1.*1)
                                then "level_0" else "index") name, "")
                      ∈ cols.*1)) as [Hin|Hout].
    + unfold process_data, mbind, mret, Py_bind, Py_ret, lift, get_index, set_index.
      destruct tz as [zone|]; cbn [index columns index_tzinfo tz_localize_UTC
        tz_convert nrows index_len];
        rewrite ?bool_decide_true by reflexivity;
        cbn [index columns index_tzinfo tz_localize_UTC tz_convert nrows
          index_len];
        rewrite ?bool_decide_true by reflexivity;
        unfold reset_index; cbn [index columns index_name];
        destruct name; cbn [default] in Hin;
        rewrite (bool_decide_true _ Hin); by do 3 eexists.
    + by rewrite (process_data_DatetimeIndex _ _ _ _ Hout).
  - rewrite (process_data_RangeIndex _ n) by reflexivity.
    split; [reflexivity | by eexists].
Qed.

(** ** The refresh, end to end *)

Lemma process_data_provider name tz ticker series :
  ticker <> "" -> ticker <> "Date" -> name ∈ ["Date"; "Datetime"] ->
  process_data (provider_frame name tz ticker series)
  = (Ok tt, canonical_frame ticker series).
Proof.
  intros Ht Hd Hname. unfold provider_frame.
  rewrite process_data_DatetimeIndex by (by apply bar_columns_fresh).
  rewrite length_map. cbn [map default fst snd bar_columns].
  assert (rename_label "Date" "Datetime" ticker = ticker) as ->
    by (unfold rename_label; by rewrite (bool_decide_false _ Hd)).
  apply elem_of_cons in Hname as [->|Hname]; [reflexivity|].
  apply list_elem_of_singleton in Hname as ->. reflexivity.
Qed.

Lemma calculate_metrics_pair data :
  calculate_metrics data = ((calculate_metrics data).1, data).
Proof.
  unfold calculate_metrics. by rewrite calculate_metrics_with_blocks.
Qed.

Lemma calculate_metrics_indicator_frame ticker series :
  (calculate_metrics (indicator_frame ticker series)).1
  = (calculate_metrics (canonical_frame ticker series)).1.
Proof.
  apply calculate_metrics_blocks_eq. intros key Hkey.
  unfold indicator_frame.
  change [(("SMA_20", ""), ?a); (("EMA_20", ""), ?b)]
    with ([(("SMA_20", ""), a)] ++ [(("EMA_20", ""), b)]).
  rewrite app_assoc.
  repeat (apply elem_of_cons in Hkey as [->|Hkey];
          [by rewrite !getitem_snoc by done|]).
  by apply elem_of_nil in Hkey.
Qed.

Lemma pipeline_provider_frame name tz ticker series :
  ticker <> "" -> ticker <> "Date" -> name ∈ ["Date"; "Datetime"] ->
  pipeline (provider_frame name tz ticker series)
  = (match series with
     | [] => Raise IndexError
     | first :: rest =>
         let change := (bar_close (final_bar first rest) - bar_close first)%Q in
         if Qeq_bool (bar_close first) 0 then Raise ZeroDivisionError
         else Ok (series_metrics first rest change
                    (change / bar_close first * 100))
     end, indicator_frame ticker series).
Proof.
  intros Ht Hd Hname. unfold pipeline.
  rewrite (bind_Ok _ _ _ _ _ (process_data_provider _ tz _ series Ht Hd Hname)).
  rewrite (bind_Ok _ _ _ _ _ (add_technical_indicators_canonical _ series Ht)).
  rewrite calculate_metrics_pair, calculate_metrics_indicator_frame.
  destruct series as [|first rest].
  - by rewrite calculate_metrics_empty.
  - by rewrite calculate_metrics_canonical.
Qed.

Lemma interval_mapping_offered time_period :
  time_period ∈ time_periods ->
  interval_mapping !! time_period
  = Some (if bool_decide (time_period = "1d") then "1m"
          else if bool_decide (time_period = "1wk") then "30m"
          else if bool_decide (time_period = "1mo") then "1d"
          else "1wk").
Proof.
  intros H. unfold time_periods in H.
  repeat (apply elem_of_cons in H as [->|H]; [reflexivity|]).
  by apply elem_of_nil in H.
Qed.

(** X7: the refresh of lines 72-76, end to end. For a period the sidebar
    offers and a provider that answers the ticker with a table of bars
    (datetime index named Date or Datetime, two-level columns), the run
    ends in one of three ways: IndexError when the table has no bar,
    ZeroDivisionError when the first close is zero, and otherwise the
    tuple of metrics of the series (last close, a change and a percent
    change, highest high, lowest low, 64-bit volume sum) together with
    the canonical table extended by the two indicator columns. *)
Theorem update_provider_frame (now : Z)
    (download : Request -> result DataFrame) (ticker time_period : string)
    (name : string) (tz : option string) (label : string)
    (series : list Bar) :
  time_period ∈ time_periods ->
  label <> "" -> label <> "Date" -> name ∈ ["Date"; "Datetime"] ->
  (forall req, req_ticker req = ticker ->
     download req = Ok (provider_frame name tz label series)) ->
  match series with
  | [] => update now download ticker time_period = Raise IndexError
  | first :: rest =>
      ((bar_close first == 0)%Q ->
       update now download ticker time_period = Raise ZeroDivisionError)
      /\ (~ (bar_close first == 0)%Q ->
          exists change pct_change,
            update now download ticker time_period
            = Ok (series_metrics first rest change pct_change,
                  indicator_frame label series))
  end.
Proof.
  intros Hperiod Hl Hd Hname Hdownload. unfold update.
  rewrite (interval_mapping_offered _ Hperiod). cbn [from_option mbind result_bind].
  assert (get_stock_data now download ticker time_period
            (if bool_decide (time_period = "1d") then "1m"
             else if bool_decide (time_period = "1wk") then "30m"
             else if bool_decide (time_period = "1mo") then "1d" else "1wk")
          = Ok (provider_frame name tz label series)) as ->.
  { unfold get_stock_data. case_bool_decide; by apply Hdownload. }
  cbn [mbind result_bind].
  rewrite (pipeline_provider_frame _ _ _ _ Hl Hd Hname).
  destruct series as [|first rest]; [reflexivity|]. cbn zeta. split.
  - intros Hz. by rewrite (Qeq_bool_true _ _ Hz).
  - intros Hnz. rewrite (Qeq_bool_false _ _ Hnz). by do 2 eexists.
Qed.

Lemma update_provider_frame_witness :
  exists change pct_change,
    update 1700000000000000
      (fun _ => Ok (provider_frame "Datetime" None "AAPL" rising)) "AAPL" "1wk"
    = Ok (series_metrics (bar_at 1700000000 100 500)
            [bar_at 1700000060 105 300; bar_at 1700000120 110 200]
            change pct_change,
          indicator_frame "AAPL" rising).
Proof.
  refine (proj2 (update_provider_frame 1700000000000000
                   (fun _ => Ok (provider_frame "Datetime" None "AAPL" rising))
                   "AAPL" "1wk" "Datetime" None "AAPL" rising _ _ _ _ _) _).
  - unfold time_periods. apply elem_of_cons. right. by left.
  - discriminate.
  - discriminate.
  - apply elem_of_cons. right. by left.
  - reflexivity.
  - intros E. vm_compute in E. discriminate E.
Defined.

(** X8: what the provider is asked. For each period the sidebar offers,
    line 72 finds an interval in the table (no KeyError) and
    [get_stock_data] sends one request, whose answer the pipeline then
    works on: for 1d the period 1d with interval 1m, for 1wk the date
    range of the seven days that end now with interval 30m, for 1mo the
    period 1mo with interval 1d, and for 1y the period 1y with interval
    1wk. A period string the table does not hold ends the run with
    KeyError before the provider is asked. *)
Theorem update_requests (now : Z) (ticker time_period : string) :
  (forall download,
     let refresh req :=
       data ← download req;
       match pipeline data with
       | (Ok metrics, data') => Ok (metrics, data')
       | (Raise e, _) => Raise e
       end in
     update now download ticker "1d"
       = refresh (mkRequest ticker (Period "1d") "1m")
     /\ update now download ticker "1wk"
        = refresh (mkRequest ticker (Dates (now - 604800000000) now) "30m")
     /\ update now download ticker "1mo"
        = refresh (mkRequest ticker (Period "1mo") "1d")
     /\ update now download ticker "1y"
        = refresh (mkRequest ticker (Period "1y") "1wk"))
  /\ time_periods = ["1d"; "1wk"; "1mo"; "1y"]
  /\ (interval_mapping !! time_period = None ->
      forall download, update now download ticker time_period = Raise KeyError).
Proof.
  split; [by intros download|]. split; [reflexivity|].
  intros Hnone download. unfold update. by rewrite Hnone.
Qed.

Lemma update_requests_witness :
  interval_mapping !! "5d" = None
  /\ forall download,
       update 1700000000000000 download "AAPL" "5d" = Raise KeyError.
Proof.
  assert (H : interval_mapping !! "5d" = None) by reflexivity.
  split; [exact H|].
  exact (proj2 (proj2 (update_requests 1700000000000000 "AAPL" "5d")) H).
Defined.

(** ** The metrics of well-formed bars *)

Lemma final_bar_elem first rest : final_bar first rest ∈ first :: rest.
Proof.
  apply (last_Some_elem_of (first :: rest)). apply last_cons_default.
Qed.

Lemma Zsum_nonneg zs : Forall (fun z => 0 <= z) zs -> 0 <= Zsum zs.
Proof. induction 1 as [|z zs Hz _ IH]; cbn [Zsum foldr]; [done|]. fold (Zsum zs). lia. Qed.

(** X10: for bars that are well formed (low <= close <= high, volume not
    negative) the metrics are consistent: the last close lies between
    the low and the high metric, and, when the total volume fits in 64
    bits, the volume metric is that total and is not negative. *)
Theorem metrics_bracket_last_close (ticker : string) (first : Bar)
    (rest : list Bar) :
  ~ (bar_close first == 0)%Q ->
  Forall well_formed (first :: rest) ->
  exists last_close change pct_change high low volume,
    calculate_metrics (canonical_frame ticker (first :: rest))
    = (Ok (SFloat (Fin last_close), change, pct_change,
           SFloat (Fin high), SFloat (Fin low), SInt volume),
       canonical_frame ticker (first :: rest))
    /\ (low <= last_close)%Q /\ (last_close <= high)%Q
    /\ (Zsum (bar_volume <$> first :: rest) < 2 ^ 63 ->
        volume = Zsum (bar_volume <$> first :: rest) /\ 0 <= volume).
Proof.
  intros Hnz Hwf. rewrite calculate_metrics_canonical, (Qeq_bool_false _ _ Hnz).
  do 6 eexists. split; [reflexivity|].
  pose proof (final_bar_elem first rest) as Hfinal.
  destruct (proj1 (Forall_forall _ _) Hwf _ Hfinal) as (Hlow & Hhigh & _).
  split; [|split].
  - eapply Qle_trans; [|exact Hlow].
    rewrite map_fmap. apply fold_Qmin_le.
    rewrite <- fmap_cons. by apply list_elem_of_fmap_2.
  - eapply Qle_trans; [exact Hhigh|].
    rewrite map_fmap. apply fold_Qmax_ge.
    rewrite <- fmap_cons. by apply list_elem_of_fmap_2.
  - intros Hfits. rewrite map_fmap.
    assert (Hpos : 0 <= Zsum (bar_volume <$> first :: rest)).
    { apply Zsum_nonneg, Forall_fmap.
      eapply Forall_impl; [exact Hwf|]. by intros bar (_ & _ & Hv). }
    rewrite int64_wrap_fits by lia. by split.
Qed.

Lemma metrics_bracket_last_close_witness :
  exists last_close change pct_change high low volume,
    calculate_metrics (canonical_frame "AAPL" rising)
    = (Ok (SFloat (Fin last_close), change, pct_change,
           SFloat (Fin high), SFloat (Fin low), SInt volume),
       canonical_frame "AAPL" rising)
    /\ (low <= last_close)%Q /\ (last_close <= high)%Q
    /\ (Zsum (bar_volume <$> rising) < 2 ^ 63 ->
        volume = Zsum (bar_volume <$> rising) /\ 0 <= volume).
Proof.
  apply (metrics_bracket_last_close "AAPL" (bar_at 1700000000 100 500)
           [bar_at 1700000060 105 300; bar_at 1700000120 110 200]).
  - intros E. vm_compute in E. discriminate E.
  - repeat constructor; by vm_compute.
Defined.

Lemma pct_sign (final first : Q) :
  (0 < first)%Q ->
  ((0 < (final - first) / first * 100 <-> first < final)
   /\ ((final - first) / first * 100 < 0 <-> final < first))%Q.
Proof.
  intros Hpos.
  assert (Hinv : (0 < / first)%Q) by (by apply Qinv_lt_0_compat).
  assert (Heq : ((final - first) / first * 100
                 == (final - first) * (/ first * 100))%Q)
    by (unfold Qdiv; ring).
  rewrite Heq. set (k := (/ first * 100)%Q).
  assert (Hk : (0 < k)%Q) by (unfold k; nra).
  clearbody k. repeat split; intros H; nra.
Qed.

(** X11: with a positive reference (first) close, the percent change has
    the sign of the change: it is positive exactly when the last close is
    above the first close, and negative exactly when it is below. *)
Theorem pct_change_sign (ticker : string) (first : Bar) (rest : list Bar) :
  (0 < bar_close first)%Q ->
  exists change pct_change high low volume,
    calculate_metrics (canonical_frame ticker (first :: rest))
    = (Ok (SFloat (Fin (bar_close (final_bar first rest))),
           SFloat (Fin change), SFloat (Fin pct_change), high, low, volume),
       canonical_frame ticker (first :: rest))
    /\ (change == bar_close (final_bar first rest) - bar_close first)%Q
    /\ (0 < pct_change <-> bar_close first < bar_close (final_bar first rest))%Q
    /\ (pct_change < 0 <-> bar_close (final_bar first rest) < bar_close first)%Q.
Proof.
  intros Hpos.
  assert (Hnz : ~ (bar_close first == 0)%Q) by lra.
  rewrite calculate_metrics_canonical, (Qeq_bool_false _ _ Hnz).
  do 5 eexists. split; [reflexivity|]. split; [reflexivity|].
  by apply pct_sign.
Qed.

Lemma pct_change_sign_witness :
  exists change pct_change high low volume,
    calculate_metrics (canonical_frame "AAPL" rising)
    = (Ok (SFloat (Fin 110), SFloat (Fin change), SFloat (Fin pct_change),
           high, low, volume),
       canonical_frame "AAPL" rising)
    /\ (change == 110 - 100)%Q
    /\ (0 < pct_change <-> 100 < 110)%Q
    /\ (pct_change < 0 <-> 110 < 100)%Q.
Proof.
  apply (pct_change_sign "AAPL" (bar_at 1700000000 100 500)
           [bar_at 1700000060 105 300; bar_at 1700000120 110 200]).
  by vm_compute.
Defined.

(** ** The indicator traces *)

Lemma add_indicator_traces_option indicator rest fig ticker series :
  indicator ∈ indicator_options ->
  add_indicator_traces (indicator :: rest) fig (indicator_frame ticker series)
  = add_indicator_traces rest (fig ++ [indicator_trace ticker series indicator])
      (indicator_frame ticker series).
Proof.
  intros H. unfold indicator_options in H.
  apply elem_of_cons in H as [->|H]; [reflexivity|].
  apply list_elem_of_singleton in H as ->. reflexivity.
Qed.

(** X12: the loop of lines 99-105 on the table the pipeline leaves. For
    any selection the sidebar offers (SMA_20, EMA_20, in any order) it
    adds to the figure one trace per selected indicator, in the order of
    the selection, each over the Datetime column and the indicator's own
    column, and leaves the table as it is. *)
Theorem indicator_traces (ticker : string) (series : list Bar)
    (indicators : list string) (fig : list Trace) :
  Forall (fun indicator => indicator ∈ indicator_options) indicators ->
  add_indicator_traces indicators fig (indicator_frame ticker series)
  = (Ok (fig ++ map (indicator_trace ticker series) indicators),
     indicator_frame ticker series).
Proof.
  intros H. revert fig.
  induction H as [|indicator rest Hind _ IH]; intros fig.
  - cbn [add_indicator_traces map]. by rewrite app_nil_r.
  - rewrite add_indicator_traces_option by done.
    rewrite IH. cbn [map]. by rewrite <- app_assoc.
Qed.

Lemma indicator_traces_witness :
  add_indicator_traces ["EMA_20"; "SMA_20"] [] (indicator_frame "AAPL" rising)
  = (Ok [indicator_trace "AAPL" rising "EMA_20";
         indicator_trace "AAPL" rising "SMA_20"],
     indicator_frame "AAPL" rising).
Proof.
  apply (indicator_traces "AAPL" rising ["EMA_20"; "SMA_20"] []).
  unfold indicator_options. repeat constructor.
Defined.

(** X13: the RSI branch of line 104 cannot work. The pipeline writes no
    RSI column, so a selection that holds RSI after any of the offered
    indicators ends the loop with KeyError at [data['RSI']]; the sidebar
    does not offer RSI, which is why the branch is never reached. *)
Theorem rsi_trace_KeyError (ticker : string) (series : list Bar)
    (before after : list string) (fig : list Trace) :
  Forall (fun indicator => indicator ∈ indicator_options) before ->
  ("RSI" ∉ indicator_options)
  /\ (add_indicator_traces (before ++ "RSI" :: after) fig
        (indicator_frame ticker series)
      = (Raise KeyError, indicator_frame ticker series)).
Proof.
  intros H. split.
  - unfold indicator_options. intros Hin.
    repeat (apply elem_of_cons in Hin as [Hin|Hin]; [discriminate Hin|]).
    by apply elem_of_nil in Hin.
  - revert fig. induction H as [|indicator rest Hind _ IH]; intros fig.
    + reflexivity.
    + cbn [app]. rewrite add_indicator_traces_option by done. apply IH.
Qed.

Lemma rsi_trace_KeyError_witness :
  add_indicator_traces (["SMA_20"] ++ "RSI" :: ["EMA_20"]) []
    (indicator_frame "AAPL" rising)
  = (Raise KeyError, indicator_frame "AAPL" rising).
Proof.
  apply (rsi_trace_KeyError "AAPL" rising ["SMA_20"] ["EMA_20"] []).
  unfold indicator_options. repeat constructor.
Defined.

(** ** What the normalizer keeps *)

Lemma relabel_values (g : string -> string) (cols : list (Label * Column)) :
  (map (fun lc : Label * Column => ((g lc.1.1, g lc.1.2), lc.2)) cols).*2
  = cols.*2.
Proof.
  induction cols as [|lc cols IH]; [reflexivity|].
  cbn [map fmap list_fmap] in *. by rewrite IH.
Qed.

Lemma relabel_labels (g : string -> string) (cols : list (Label * Column)) :
  (map (fun lc : Label * Column => ((g lc.1.1, g lc.1.2), lc.2)) cols).*1
  = (fun l : Label => (g l.1, g l.2)) <$> cols.*1.
Proof.
  induction cols as [|lc cols IH]; [reflexivity|].
  cbn [map fmap list_fmap] in *. by rewrite IH.
Qed.

(** X14: on any table, when [process_data] succeeds it has changed no
    value. The table had a datetime index; its instants, in their order,
    are now the first column, in the zone US/Eastern; after it come the
    columns the table had, each with the values it had, in the order they
    had; and the labels are the ones the table had, except that Date has
    become Datetime. *)
Theorem process_data_keeps_values (data data' : DataFrame) :
  process_data data = (Ok tt, data') ->
  exists name tz xs label,
    index data = DatetimeIndex name tz xs
    /\ index data' = RangeIndex (length xs)
    /\ (columns data').*2
       = Datetime64 (Some "US/Eastern") xs :: (columns data).*2
    /\ (columns data').*1
       = (fun l : Label => (rename_label "Date" "Datetime" l.1,
                            rename_label "Date" "Datetime" l.2))
         <$> ((label, "") :: (columns data).*1).
Proof.
  destruct data as [[name tz xs|n] cols].
  - destruct (decide ((default (if bool_decide ("index" ∈ cols.*1.*1)
                                then "level_0" else "index") name, "")
                      ∈ cols.*1)) as [Hin|Hout].
    + unfold process_data, mbind, mret, Py_bind, Py_ret, lift, get_index, set_index.
      destruct tz as [zone|]; cbn [index columns index_tzinfo tz_localize_UTC
        tz_convert nrows index_len];
        rewrite ?bool_decide_true by reflexivity;
        cbn [index columns index_tzinfo tz_localize_UTC tz_convert nrows
          index_len];
        rewrite ?bool_decide_true by reflexivity;
        unfold reset_index; cbn [index columns index_name];
        destruct name; cbn [default] in Hin;
        rewrite (bool_decide_true _ Hin); discriminate.
    + rewrite (process_data_DatetimeIndex _ _ _ _ Hout).
      intros [= <-]. do 4 eexists. split; [reflexivity|].
      split; [reflexivity|]. cbn [columns index].
      split.
      * by rewrite fmap_cons, relabel_values.
      * by rewrite !fmap_cons, relabel_labels.
  - rewrite (process_data_RangeIndex _ n); [discriminate | reflexivity].
Qed.

Lemma process_data_keeps_values_witness :
  exists name tz xs label,
    index (provider_frame "Date" None "AAPL" rising) = DatetimeIndex name tz xs
    /\ index (canonical_frame "AAPL" rising) = RangeIndex (length xs)
    /\ (columns (canonical_frame "AAPL" rising)).*2
       = Datetime64 (Some "US/Eastern") xs
           :: (columns (provider_frame "Date" None "AAPL" rising)).*2
    /\ (columns (canonical_frame "AAPL" rising)).*1
       = (fun l : Label => (rename_label "Date" "Datetime" l.1,
                            rename_label "Date" "Datetime" l.2))
         <$> ((label, "")
                :: (columns (provider_frame "Date" None "AAPL" rising)).*1).
Proof.
  apply (process_data_keeps_values (provider_frame "Date" None "AAPL" rising)
           (canonical_frame "AAPL" rising)).
  reflexivity.
Defined.
